(** * CTK request handler: a shallow embedding of [ctk/requests.py]

    [RequestHandler.handle_request] drives an HTTP call through a bounded
    retry loop.  The Python code has three kinds of effect: it calls the
    [requests] transport, it draws a random jitter, and it sleeps.  They are
    modelled by a state-and-exception monad over a record holding the local
    variables of the running call ([attempt_number], [response]) together
    with the observable trace of transport calls and sleeps.  The state
    survives a raised exception, which is what lets the [finally] clause and
    the [except] handlers observe what the [try] block did before raising.

    What the Python runtime and the [requests] library provide is not part of
    the repository and is taken as an environment [Env]: the transport (the
    outcome of the k-th call), the random source (the k-th draw of
    [random.uniform(0, 1)]) and [bytes.decode('utf-8')].  [time.sleep]
    records the sleep in the trace and, as in Python, raises [ValueError]
    on a negative argument.  Binary64 numbers are rationals and every
    floating-point operation is the exact operation followed by the
    rounding [fl] of the environment, of which only what holds of rounding
    to nearest is assumed: it is monotone and it leaves the integers up to
    2^53 as they are.  Calls to [logging] are left out: they do not
    influence control flow. *)

From Stdlib Require Import ZArith QArith Qminmax Qpower Qround String List Lia Lqa.
From stdpp Require Import base decidable gmap strings pretty.
From Stdlib Require Import PrimFloat.
Import ListNotations.

Local Open Scope Z_scope.
Local Open Scope string_scope.

(** ** Data *)

Definition bytes := list Byte.byte.

(** The structured value produced by [response.json()]; [PyNone] is also
    what a Python function returns when control falls off its end. *)
#[warnings="-register-all"]
Inductive PyValue :=
| PyNone
| PyBool (b : bool)
| PyInt (z : Z)
| PyStr (s : string)
| PyList (l : list PyValue)
| PyDict (d : list (string * PyValue)).

(** The exception classes that can reach [handle_request].  The first four
    are the [requests.exceptions] classes matched by the clause
    [except (HTTPError, Timeout, ReadTimeout)]: [ReadTimeout] and
    [ConnectTimeout] are subclasses of [Timeout]. *)
Inductive Exc :=
| HTTPError (msg : string)
| Timeout (msg : string)
| ReadTimeout (msg : string)
| ConnectTimeout (msg : string)
| ConnectionError (msg : string)
| JSONDecodeError (msg : string)
| UnicodeDecodeError
| ValueError (msg : string)
| UnspecifiedHTTPStatusError (message : string)
| UnboundLocalError (var : string).

(** [requests.Response], as far as the handler looks at it: the attribute
    [status_code], the attribute [content] and the outcome of the method
    [json()]. *)
Record Response := mkResponse {
  status_code : Z;
  content : bytes;
  json : Exc + PyValue
}.

(** The attributes set by [RequestHandler.__init__]. *)
Record RequestHandler := mkRequestHandler {
  base_url : string;
  headers : option (list (string * string));
  method : string;
  request_interval : Z;
  retry_max_attempts : Z;
  valid_statuses : gset Z;
  invalid_statuses : gset Z;
  retry_statuses : gset Z
}.

(** The defaults of the constructor's keyword arguments. *)
Definition default_handler (url : string) : RequestHandler :=
  {| base_url := url;
     headers := None;
     method := "GET";
     request_interval := 5;
     retry_max_attempts := 3;
     valid_statuses := {[ 200; 201 ]};
     invalid_statuses := {[ 400; 401; 403; 404; 429; 500; 503 ]};
     retry_statuses := {[ 429 ]} |}.

(** ** Environment, trace and state *)

(** [transport k] is the outcome of the k-th request, [uniform k] the k-th
    value of [random.uniform(0, 1)], which lies in [0, 1).  [fl] rounds a
    real result to the binary64 number the float arithmetic delivers. *)
Record Env := mkEnv {
  transport : nat -> Exc + Response;
  uniform : nat -> Q;
  uniform_range : forall k, (0 <= uniform k)%Q /\ (uniform k < 1)%Q;
  fl : Q -> Q;
  fl_mono : forall x y, (x <= y)%Q -> (fl x <= fl y)%Q;
  fl_exact : forall z, Z.abs z <= 2 ^ 53 -> (fl (inject_Z z) == inject_Z z)%Q;
  decode_utf8 : bytes -> option string
}.

Inductive Verb := GET | POST.

(** The two call sites of [time.sleep] in [handle_request]: the backoff
    sleep inside the [except] clause and the pacing sleep of the [finally]
    clause. *)
Inductive SleepSite := Backoff | Pacing.

Inductive Event :=
| EvRequest (verb : Verb)
| EvSleep (site : SleepSite) (seconds : Q).

Record State := mkState {
  attempt_number : Z;
  response : option Response;
  sent : nat;
  drawn : nat;
  trace : list Event
}.

Definition boot : State :=
  {| attempt_number := 0; response := None; sent := 0; drawn := 0; trace := [] |}.

(** ** The monad *)

Inductive Result (A : Type) :=
| Ok (a : A)
| Raised (e : Exc)
| OutOfFuel.
Arguments Ok {A} a.
Arguments Raised {A} e.
Arguments OutOfFuel {A}.

Definition M (A : Type) : Type := State -> Result A * State.

Definition ret {A} (a : A) : M A := fun s => (Ok a, s).

Definition raise {A} (e : Exc) : M A := fun s => (Raised e, s).

Definition bind {A B} (c : M A) (k : A -> M B) : M B :=
  fun s =>
    match c s with
    | (Ok a, s') => k a s'
    | (Raised e, s') => (Raised e, s')
    | (OutOfFuel, s') => (OutOfFuel, s')
    end.

Declare Scope py_scope.
Delimit Scope py_scope with py.
Notation "'do' x <- c ; k" := (bind c (fun x => k))
  (at level 10, x name, c at level 100, k at level 200) : py_scope.
Notation "'exec' c ; k" := (bind c (fun _ => k))
  (at level 10, c at level 100, k at level 200) : py_scope.
Local Open Scope py_scope.

(** [try: body except ...: handlers]: a handler runs in the state the body
    left behind; what a handler raises is not offered to the sibling
    clauses. *)
Definition try_except {A} (body : M A) (handlers : Exc -> option (M A)) : M A :=
  fun s =>
    match body s with
    | (Raised e, s') =>
        match handlers e with
        | Some h => h s'
        | None => (Raised e, s')
        end
    | other => other
    end.

(** [try: body finally: fin]: [fin] runs however [body] ended, and the
    pending return value or exception is delivered afterwards. *)
Definition try_finally {A} (body : M A) (fin : M unit) : M A :=
  fun s =>
    match body s with
    | (OutOfFuel, s') => (OutOfFuel, s')
    | (r, s') =>
        match fin s' with
        | (Ok _, s'') => (r, s'')
        | (Raised e, s'') => (Raised e, s'')
        | (OutOfFuel, s'') => (OutOfFuel, s'')
        end
    end.

(** ** Primitive effects *)

Definition emit (ev : Event) (s : State) : State :=
  {| attempt_number := attempt_number s; response := response s;
     sent := sent s; drawn := drawn s; trace := trace s ++ [ev] |}.

(** [time.sleep] refuses a negative argument. *)
Definition time_sleep (site : SleepSite) (seconds : Q) : M unit :=
  fun s =>
    if Qle_bool 0 seconds then (Ok tt, emit (EvSleep site seconds) s)
    else (Raised (ValueError "sleep length must be non-negative"), s).

Definition random_uniform_0_1 (env : Env) : M Q :=
  fun s =>
    (Ok (uniform env (drawn s)),
     {| attempt_number := attempt_number s; response := response s;
        sent := sent s; drawn := S (drawn s); trace := trace s |}).

(** [requests.get] / [requests.post]: the arguments ([base_url], [headers],
    [params], [json], [timeout=30]) are the same on every call of one
    invocation, so the transport is indexed by the number of calls made. *)
Definition requests_call (env : Env) (verb : Verb) : M Response :=
  fun s =>
    let s' :=
      {| attempt_number := attempt_number s; response := response s;
         sent := S (sent s); drawn := drawn s;
         trace := trace s ++ [EvRequest verb] |} in
    match transport env (sent s) with
    | inl e => (Raised e, s')
    | inr r => (Ok r, s')
    end.

Definition requests_get (env : Env) : M Response := requests_call env GET.
Definition requests_post (env : Env) : M Response := requests_call env POST.

Definition bytes_decode (env : Env) (b : bytes) : M string :=
  match decode_utf8 env b with
  | Some text => ret text
  | None => raise UnicodeDecodeError
  end.

Definition response_json (r : Response) : M PyValue :=
  match json r with
  | inl e => raise e
  | inr v => ret v
  end.

(** Local variables. *)
Definition get_attempt_number : M Z := fun s => (Ok (attempt_number s), s).

Definition set_attempt_number (n : Z) : M unit :=
  fun s =>
    (Ok tt, {| attempt_number := n; response := response s;
               sent := sent s; drawn := drawn s; trace := trace s |}).

Definition set_response (r : Response) : M unit :=
  fun s =>
    (Ok tt, {| attempt_number := attempt_number s; response := Some r;
               sent := sent s; drawn := drawn s; trace := trace s |}).

(** Reading [response] before it was ever assigned. *)
Definition get_response : M Response :=
  fun s =>
    match response s with
    | Some r => (Ok r, s)
    | None => (Raised (UnboundLocalError "response"), s)
    end.

(** The locals of a fresh call: nothing is bound yet. *)
Definition new_frame : M unit :=
  fun s =>
    (Ok tt, {| attempt_number := 0; response := None;
               sent := sent s; drawn := drawn s; trace := trace s |}).

(** ** [RequestHandler._backoff_delay] *)

(** [min(2 ** attempt_number, 10)].  For an exponent [n >= 0] this is
    integer arithmetic.  For [n < 0] Python computes the float [2.0 ** n],
    which underflows to [0.0] for very negative [n]. *)
Definition backoff_base (env : Env) (n : Z) : Q :=
  if Z.leb 0 n then inject_Z (Z.min (2 ^ n) 10)
  else Qmin (fl env (2 ^ n)) 10.

(** [delay * (1 + jitter)]: a float addition, then a float multiplication. *)
Definition backoff (env : Env) (n : Z) (jitter : Q) : Q :=
  fl env (backoff_base env n * fl env (1 + jitter)).

Definition _backoff_delay (env : Env) (attempt : Z) : M Q :=
  do jitter <- random_uniform_0_1 env;
  ret (backoff env attempt jitter).

(** ** [RequestHandler._handle_response] *)

Definition _handle_response (env : Env) (self : RequestHandler) (r : Response) : M bool :=
  if decide (status_code r ∈ valid_statuses self) then ret true
  else if decide (status_code r ∈ invalid_statuses self) then
    (do text <- bytes_decode env (content r);
     raise (HTTPError text))
  else
    raise (UnspecifiedHTTPStatusError
             ("Response status code not specified as valid or invalid: "
              ++ pretty (status_code r))).

(** ** [RequestHandler.handle_request] *)

(** The clause [except (HTTPError, Timeout, ReadTimeout) as e].  The test
    [attempt_number == self.retry_max_attempts or
     response.status_code not in self.retry_statuses] short-circuits: the
    local [response] is read only when the first disjunct is false. *)
Definition except_retry (env : Env) (self : RequestHandler) (e : Exc)
  : M (option PyValue) :=
  do n <- get_attempt_number;
  do reraise <-
    (if Z.eqb n (retry_max_attempts self) then ret true
     else
       do r <- get_response;
       ret (negb (bool_decide (status_code r ∈ retry_statuses self))));
  if (reraise : bool) then raise e
  else
    do delay <- _backoff_delay env n;
    exec time_sleep Backoff delay;
    exec set_attempt_number (n + 1);
    ret None.

(** The [except] clauses of the loop body, in source order.  An exception of
    any other class is not handled here. *)
Definition handlers (env : Env) (self : RequestHandler) (e : Exc)
  : option (M (option PyValue)) :=
  match e with
  | HTTPError _ | Timeout _ | ReadTimeout _ | ConnectTimeout _ =>
      Some (except_retry env self e)
  | UnspecifiedHTTPStatusError _ => Some (raise e)
  | _ => None
  end.

(** The dispatch on [self.method] that opens the [try] block. *)
Definition send_request (env : Env) (self : RequestHandler) : M Response :=
  if String.eqb (method self) "GET" then requests_get env
  else if String.eqb (method self) "POST" then requests_post env
  else raise (ValueError ("Invalid HTTP method: " ++ method self)).

(** The [try] block: [Some v] stands for [return v], [None] for reaching
    the end of the block. *)
Definition try_block (env : Env) (self : RequestHandler) : M (option PyValue) :=
  do r <- send_request env self;
  exec set_response r;
  do valid <- _handle_response env self r;
  if (valid : bool) then
    do body <- response_json r;
    ret (Some body)
  else ret None.

(** One pass through the body of the [while] loop. *)
Definition iteration (env : Env) (self : RequestHandler) : M (option PyValue) :=
  try_finally
    (try_except (try_block env self) (handlers env self))
    (time_sleep Pacing (inject_Z (request_interval self))).

(** [while attempt_number <= self.retry_max_attempts: ...]; when the test
    fails the function falls off its end and returns [None].  [fuel] bounds
    the number of passes. *)
Fixpoint while_loop (fuel : nat) (env : Env) (self : RequestHandler) : M PyValue :=
  do n <- get_attempt_number;
  if Z.leb n (retry_max_attempts self) then
    match fuel with
    | O => fun s => (OutOfFuel, s)
    | S fuel' =>
        do returned <- iteration env self;
        match returned with
        | Some v => ret v
        | None => while_loop fuel' env self
        end
    end
  else ret PyNone.

(** The arguments [post_data] and [params] are only handed on to the
    transport, which absorbs them. *)
Definition handle_request (env : Env) (self : RequestHandler) : M PyValue :=
  exec new_frame;
  exec set_attempt_number 1;
  while_loop (Z.to_nat (retry_max_attempts self)) env self.

(** ** Observations on a trace *)

Definition is_request (ev : Event) : bool :=
  match ev with EvRequest _ => true | EvSleep _ _ => false end.

Definition is_sleep_at (site : SleepSite) (ev : Event) : bool :=
  match ev, site with
  | EvSleep Backoff _, Backoff => true
  | EvSleep Pacing _, Pacing => true
  | _, _ => false
  end.

Definition requests_made (t : list Event) : nat := length (List.filter is_request t).

Definition sleeps_at (site : SleepSite) (t : list Event) : nat :=
  length (List.filter (is_sleep_at site) t).

Definition verb_of (self : RequestHandler) : option Verb :=
  if String.eqb (method self) "GET" then Some GET
  else if String.eqb (method self) "POST" then Some POST
  else None.

Definition pace (self : RequestHandler) : Q := inject_Z (request_interval self).

(** The events one pass of the loop adds when a request goes out: the
    request, a backoff sleep if the pass schedules a retry, and the pacing
    sleep of the [finally] clause. *)
Definition request_block (v : Verb) (p : Q) (blk : list Event) : Prop :=
  blk = [EvRequest v; EvSleep Pacing p]
  \/ exists d, blk = [EvRequest v; EvSleep Backoff d; EvSleep Pacing p].

(** The events of one attempt, that is of one pass of the loop.  With a
    method other than GET and POST the pass raises before it sends anything
    and only the pacing sleep is left. *)
Definition attempt_block (self : RequestHandler) (blk : list Event) : Prop :=
  match verb_of self with
  | Some v => request_block v (pace self) blk
  | None => blk = [EvSleep Pacing (pace self)]
  end.

(** A status that the handler retries: [_handle_response] turns it into an
    [HTTPError] and the [except] clause finds it in [retry_statuses]. *)
Definition retried_status (self : RequestHandler) (code : Z) : Prop :=
  (code ∉ valid_statuses self)
  /\ (code ∈ invalid_statuses self)
  /\ (code ∈ retry_statuses self).

(** The state after a pass that sent a request and received [r]. *)
Definition received (s : State) (r : Response) (n : Z) (draws : nat)
    (evs : list Event) : State :=
  {| attempt_number := n; response := Some r; sent := S (sent s);
     drawn := (draws + drawn s)%nat; trace := trace s ++ evs |}.

(** The state after a pass whose request raised instead of returning. *)
Definition failed (s : State) (n : Z) (draws : nat) (evs : list Event) : State :=
  {| attempt_number := n; response := response s; sent := S (sent s);
     drawn := (draws + drawn s)%nat; trace := trace s ++ evs |}.

(** The state in which the loop is entered: [attempt_number = 1] and
    [response] not yet bound. *)
Definition entry (s : State) : State :=
  {| attempt_number := 1; response := None; sent := sent s;
     drawn := drawn s; trace := trace s |}.

(** The number of passes the loop can still make from a state. *)
Definition passes_left (self : RequestHandler) (s : State) : nat :=
  Z.to_nat (retry_max_attempts self + 1 - attempt_number s).

(** The exceptions matched by [except (HTTPError, Timeout, ReadTimeout)]
    that stand for a transport failure. *)
Definition is_timeout (e : Exc) : bool :=
  match e with
  | Timeout _ | ReadTimeout _ | ConnectTimeout _ => true
  | _ => false
  end.

(** The events of the [k]-th pass that asks for a retry, counted from a
    pass with attempt number [a] and [i] random draws behind it, and the
    events of a pass that ends the call. *)
Definition retry_block (env : Env) (self : RequestHandler) (v : Verb)
    (a : Z) (i : nat) (k : nat) : list Event :=
  [EvRequest v;
   EvSleep Backoff (backoff env (a + Z.of_nat k) (uniform env (i + k)));
   EvSleep Pacing (pace self)].

Definition final_block (self : RequestHandler) (v : Verb) : list Event :=
  [EvRequest v; EvSleep Pacing (pace self)].

(** ** Concrete configurations and transports *)

Definition http_response (code : Z) (body : bytes) (parsed : PyValue) : Response :=
  {| status_code := code; content := body; json := inr parsed |}.

(** A decoder defined on 7-bit input, where UTF-8 and ASCII agree. *)
Definition ascii_only (b : bytes) : option string :=
  if forallb (fun c => (Byte.to_nat c <? 128)%nat) b
  then Some (string_of_list_byte b) else None.

Definition half : nat -> Q := fun _ => (1 # 2)%Q.

Lemma half_range (k : nat) : (0 <= half k)%Q /\ (half k < 1)%Q.
Proof. split; [discriminate | reflexivity]. Qed.

(** With the jitter [1/2] every intermediate result of the handler is a
    binary64 number (1.5, and small multiples of it), so that no rounding
    takes place: the environments below compute with [fl x = x]. *)
Definition unrounded (x : Q) : Q := x.

Lemma unrounded_mono x y : (x <= y)%Q -> (unrounded x <= unrounded y)%Q.
Proof. intros H. exact H. Qed.

Lemma unrounded_exact z :
  Z.abs z <= 2 ^ 53 -> (unrounded (inject_Z z) == inject_Z z)%Q.
Proof. intros _. reflexivity. Qed.

(** Rounding to the nearest multiple of [2^-52], a tie going upwards.  On
    the interval from 1 to 2 these multiples are the binary64 numbers. *)
Definition round52 (x : Q) : Q :=
  (inject_Z (Qfloor (x * inject_Z (2 ^ 52) + (1 # 2))) / inject_Z (2 ^ 52))%Q.

(** The largest value [random.uniform(0, 1)] can return, [1 - 2^-53]. *)
Definition top_jitter : nat -> Q := fun _ => ((2 ^ 53 - 1) # (2 ^ 53))%Q.

(** The same arithmetic on binary64 numbers themselves: [base * (1 + j)]
    as lines 70-72 compute it, and the largest jitter as a float. *)
Definition binary64_delay (base jitter : float) : float :=
  PrimFloat.mul base (PrimFloat.add 1%float jitter).

Definition binary64_top_jitter : float := 0x1.fffffffffffffp-1%float.

Lemma round52_mono x y : (x <= y)%Q -> (round52 x <= round52 y)%Q.
Proof.
  intros H. unfold round52, Qdiv. apply Qmult_le_compat_r; [| discriminate].
  rewrite <- Zle_Qle. apply Qfloor_resp_le.
  apply Qplus_le_l. apply Qmult_le_compat_r; [exact H | discriminate].
Qed.

Lemma round52_exact z :
  Z.abs z <= 2 ^ 53 -> (round52 (inject_Z z) == inject_Z z)%Q.
Proof.
  intros _. unfold round52.
  assert (Hfloor : Qfloor (inject_Z z * inject_Z (2 ^ 52) + (1 # 2)) = z * 2 ^ 52).
  { rewrite <- inject_Z_mult.
    apply Z.le_antisymm.
    - apply Z.lt_succ_r. rewrite Zlt_Qlt.
      eapply Qle_lt_trans; [apply Qfloor_le |].
      unfold Z.succ. rewrite inject_Z_plus. apply Qplus_lt_r. reflexivity.
    - rewrite <- (Qfloor_Z (z * 2 ^ 52)) at 1. apply Qfloor_resp_le.
      rewrite <- (Qplus_0_r (inject_Z (z * 2 ^ 52))) at 1.
      apply Qplus_le_r. discriminate. }
  rewrite Hfloor, inject_Z_mult. field. discriminate.
Qed.

Lemma top_jitter_range (k : nat) : (0 <= top_jitter k)%Q /\ (top_jitter k < 1)%Q.
Proof. split; [discriminate | reflexivity]. Qed.

(** A 429 on every call, the largest jitter on every draw. *)
Definition unlucky : Env :=
  {| transport := fun _ => inr (http_response 429 [] PyNone);
     uniform := top_jitter; uniform_range := top_jitter_range;
     fl := round52; fl_mono := round52_mono; fl_exact := round52_exact;
     decode_utf8 := ascii_only |}.

Definition always (code : Z) : Env :=
  {| transport := fun _ => inr (http_response code [] PyNone);
     uniform := half; uniform_range := half_range;
     fl := unrounded; fl_mono := unrounded_mono; fl_exact := unrounded_exact;
     decode_utf8 := ascii_only |}.

Definition first_then (code1 code2 : Z) : Env :=
  {| transport := fun k =>
       match k with
       | O => inr (http_response code1 [] PyNone)
       | _ => inr (http_response code2 [] (PyDict [("ok", PyBool true)]))
       end;
     uniform := half; uniform_range := half_range;
     fl := unrounded; fl_mono := unrounded_mono; fl_exact := unrounded_exact;
     decode_utf8 := ascii_only |}.

Definition timing_out : Env :=
  {| transport := fun _ => inl (Timeout "timed out");
     uniform := half; uniform_range := half_range;
     fl := unrounded; fl_mono := unrounded_mono; fl_exact := unrounded_exact;
     decode_utf8 := ascii_only |}.

(** A 429, then a timeout, then a 200. *)
Definition flaky : Env :=
  {| transport := fun k =>
       match k with
       | O => inr (http_response 429 [] PyNone)
       | 1%nat => inl (Timeout "timed out")
       | _ => inr (http_response 200 [] (PyInt 7))
       end;
     uniform := half; uniform_range := half_range;
     fl := unrounded; fl_mono := unrounded_mono; fl_exact := unrounded_exact;
     decode_utf8 := ascii_only |}.

(** The spec's data model asks for [retry_statuses] disjoint from the other
    two sets; this is the default configuration with 429 moved out of
    [invalid_statuses]. *)
Definition disjoint_handler : RequestHandler :=
  {| base_url := "https://api.example";
     headers := None;
     method := "GET";
     request_interval := 5;
     retry_max_attempts := 3;
     valid_statuses := {[ 200; 201 ]};
     invalid_statuses := {[ 400; 401; 403; 404; 500; 503 ]};
     retry_statuses := {[ 429 ]} |}.

Definition stock_handler : RequestHandler := default_handler "https://api.example".

Definition with_max_attempts (n : Z) (self : RequestHandler) : RequestHandler :=
  {| base_url := base_url self;
     headers := headers self;
     method := method self;
     request_interval := request_interval self;
     retry_max_attempts := n;
     valid_statuses := valid_statuses self;
     invalid_statuses := invalid_statuses self;
     retry_statuses := retry_statuses self |}.

(** A connection that is refused on every call. *)
Definition refusing : Env :=
  {| transport := fun _ => inl (ConnectionError "connection refused");
     uniform := half; uniform_range := half_range;
     fl := unrounded; fl_mono := unrounded_mono; fl_exact := unrounded_exact;
     decode_utf8 := ascii_only |}.

(** A 429 whose body is the single byte 0xff, which is not UTF-8. *)
Definition garbled : Env :=
  {| transport := fun _ => inr (http_response 429 [Byte.xff] PyNone);
     uniform := half; uniform_range := half_range;
     fl := unrounded; fl_mono := unrounded_mono; fl_exact := unrounded_exact;
     decode_utf8 := ascii_only |}.

(** A 200 whose body is not JSON. *)
Definition unparsable : Env :=
  {| transport := fun _ =>
       inr {| status_code := 200; content := [];
              json := inl (JSONDecodeError "Expecting value") |};
     uniform := half; uniform_range := half_range;
     fl := unrounded; fl_mono := unrounded_mono; fl_exact := unrounded_exact;
     decode_utf8 := ascii_only |}.

Definition with_method (m : string) (self : RequestHandler) : RequestHandler :=
  {| base_url := base_url self;
     headers := headers self;
     method := m;
     request_interval := request_interval self;
     retry_max_attempts := retry_max_attempts self;
     valid_statuses := valid_statuses self;
     invalid_statuses := invalid_statuses self;
     retry_statuses := retry_statuses self |}.

Definition with_interval (seconds : Z) (self : RequestHandler) : RequestHandler :=
  {| base_url := base_url self;
     headers := headers self;
     method := method self;
     request_interval := seconds;
     retry_max_attempts := retry_max_attempts self;
     valid_statuses := valid_statuses self;
     invalid_statuses := invalid_statuses self;
     retry_statuses := retry_statuses self |}.

(** * Properties *)

(** ** One pass of the loop, case by case *)

Lemma send_request_verb env self v :
  verb_of self = Some v -> send_request env self = requests_call env v.
Proof.
  unfold verb_of, send_request, requests_get, requests_post.
  destruct (String.eqb (method self) "GET").
  - intros [= <-]. reflexivity.
  - destruct (String.eqb (method self) "POST"); [intros [= <-] | intros [=]].
    reflexivity.
Qed.

Lemma send_request_invalid env self :
  verb_of self = None ->
  send_request env self = raise (ValueError ("Invalid HTTP method: " ++ method self)).
Proof.
  unfold verb_of, send_request.
  destruct (String.eqb (method self) "GET"); [intros [=] |].
  destruct (String.eqb (method self) "POST"); [intros [=] | reflexivity].
Qed.

(** The three outcomes of [_handle_response]; it never returns [False]. *)
Lemma handle_response_valid env self r s :
  status_code r ∈ valid_statuses self ->
  _handle_response env self r s = (Ok true, s).
Proof. intros H. unfold _handle_response. rewrite decide_True by exact H. reflexivity. Qed.

Lemma handle_response_invalid env self r s text :
  status_code r ∉ valid_statuses self ->
  status_code r ∈ invalid_statuses self ->
  decode_utf8 env (content r) = Some text ->
  _handle_response env self r s = (Raised (HTTPError text), s).
Proof.
  intros Hv Hi Hd. unfold _handle_response, bytes_decode, bind.
  rewrite decide_False by exact Hv. rewrite decide_True by exact Hi.
  rewrite Hd. reflexivity.
Qed.

Lemma handle_response_unspecified env self r s :
  status_code r ∉ valid_statuses self ->
  status_code r ∉ invalid_statuses self ->
  _handle_response env self r s =
    (Raised (UnspecifiedHTTPStatusError
               ("Response status code not specified as valid or invalid: "
                ++ pretty (status_code r))), s).
Proof.
  intros Hv Hi. unfold _handle_response.
  rewrite !decide_False by assumption. reflexivity.
Qed.

Lemma handle_response_never_false env self r s s' :
  _handle_response env self r s <> (Ok false, s').
Proof.
  unfold _handle_response, bytes_decode, bind, ret, raise.
  repeat case_decide; try discriminate.
  destruct (decode_utf8 env (content r)); discriminate.
Qed.

(** Both sleeps of a pass go through: the backoff delay is never negative,
    and the pacing interval is not when the configuration is sound. *)
Lemma fl_int env (z : Z) :
  Z.abs z <= 2 ^ 53 -> forall x, (x == inject_Z z)%Q -> (fl env x == inject_Z z)%Q.
Proof.
  intros Hz x Hx. rewrite <- (fl_exact env z Hz).
  apply Qle_antisym; apply fl_mono; rewrite Hx; apply Qle_refl.
Qed.

Lemma fl_ge env (z : Z) x :
  Z.abs z <= 2 ^ 53 -> (inject_Z z <= x)%Q -> (inject_Z z <= fl env x)%Q.
Proof. intros Hz Hx. rewrite <- (fl_exact env z Hz). apply fl_mono, Hx. Qed.

Lemma fl_le env (z : Z) x :
  Z.abs z <= 2 ^ 53 -> (x <= inject_Z z)%Q -> (fl env x <= inject_Z z)%Q.
Proof. intros Hz Hx. rewrite <- (fl_exact env z Hz). apply fl_mono, Hx. Qed.

Lemma backoff_base_int env n :
  0 <= n -> (backoff_base env n == inject_Z (Z.min (2 ^ n) 10))%Q.
Proof.
  intros Hn. unfold backoff_base.
  rewrite (proj2 (Z.leb_le 0 n) Hn). reflexivity.
Qed.

Lemma backoff_base_range env n :
  (0 <= backoff_base env n)%Q /\ (backoff_base env n <= 10)%Q.
Proof.
  unfold backoff_base. destruct (Z.leb_spec 0 n) as [Hn | Hn].
  - assert (0 < 2 ^ n) by (apply Z.pow_pos_nonneg; lia).
    change 0%Q with (inject_Z 0). change 10%Q with (inject_Z 10).
    rewrite <- !Zle_Qle. lia.
  - split; [| apply Q.le_min_r].
    apply Q.min_glb; [| discriminate].
    apply (fl_ge env 0); [discriminate |].
    apply Qlt_le_weak, Qpower_0_lt. reflexivity.
Qed.

(** The sum [1 + jitter] rounds to a float between 1 and 2; the upper end
    is reached when the sum is too close to 2 to be told apart from it. *)
Lemma fl_one_plus_jitter env k :
  (1 <= fl env (1 + uniform env k))%Q /\ (fl env (1 + uniform env k) <= 2)%Q.
Proof.
  destruct (uniform_range env k) as [Hlo Hhi]. split.
  - apply (fl_ge env 1); [discriminate |]. change (inject_Z 1) with 1%Q. lra.
  - apply (fl_le env 2); [discriminate |]. change (inject_Z 2) with 2%Q. lra.
Qed.

Lemma backoff_sleepable env n k :
  Qle_bool 0 (backoff env n (uniform env k)) = true.
Proof.
  apply Qle_bool_iff. unfold backoff.
  apply (fl_ge env 0); [discriminate |]. change (inject_Z 0) with 0%Q.
  destruct (backoff_base_range env n). destruct (fl_one_plus_jitter env k). nra.
Qed.

Lemma pace_sleepable self :
  0 <= request_interval self ->
  Qle_bool 0 (inject_Z (request_interval self)) = true.
Proof.
  intros H. apply Qle_bool_iff. change 0%Q with (inject_Z 0).
  rewrite <- Zle_Qle. exact H.
Qed.

Lemma time_sleep_nonneg site d :
  Qle_bool 0 d = true ->
  time_sleep site d = fun s => (Ok tt, emit (EvSleep site d) s).
Proof. intros H. unfold time_sleep. rewrite H. reflexivity. Qed.

#[local] Arguments Qle_bool : simpl never.
#[local] Arguments backoff : simpl never.

Ltac open_pass v :=
  unfold iteration, try_finally, try_except, try_block;
  rewrite (send_request_verb _ _ v) by assumption;
  rewrite (time_sleep_nonneg Pacing) by (apply pace_sleepable; assumption);
  unfold bind at 1 2 3; unfold requests_call, set_response.

Ltac close_pass :=
  cbn; unfold received, failed, pace, time_sleep, emit; cbn;
  rewrite ?backoff_sleepable; cbn;
  rewrite <- ?app_assoc; cbn; reflexivity.

Lemma iteration_accepted env self s v r body :
  verb_of self = Some v ->
  0 <= request_interval self ->
  transport env (sent s) = inr r ->
  status_code r ∈ valid_statuses self ->
  json r = inr body ->
  iteration env self s =
    (Ok (Some body),
     received s r (attempt_number s) 0 [EvRequest v; EvSleep Pacing (pace self)]).
Proof.
  intros Hv Hp Ht Hs Hj. open_pass v. rewrite Ht.
  rewrite handle_response_valid by exact Hs.
  unfold response_json; rewrite Hj. close_pass.
Qed.

Lemma iteration_unspecified env self s v r :
  verb_of self = Some v ->
  0 <= request_interval self ->
  transport env (sent s) = inr r ->
  status_code r ∉ valid_statuses self ->
  status_code r ∉ invalid_statuses self ->
  iteration env self s =
    (Raised (UnspecifiedHTTPStatusError
               ("Response status code not specified as valid or invalid: "
                ++ pretty (status_code r))),
     received s r (attempt_number s) 0 [EvRequest v; EvSleep Pacing (pace self)]).
Proof.
  intros Hv Hp Ht Hs Hi. open_pass v. rewrite Ht.
  rewrite handle_response_unspecified by assumption. close_pass.
Qed.

Lemma iteration_rejected env self s v r text :
  verb_of self = Some v ->
  0 <= request_interval self ->
  transport env (sent s) = inr r ->
  status_code r ∉ valid_statuses self ->
  status_code r ∈ invalid_statuses self ->
  decode_utf8 env (content r) = Some text ->
  attempt_number s = retry_max_attempts self \/ status_code r ∉ retry_statuses self ->
  iteration env self s =
    (Raised (HTTPError text),
     received s r (attempt_number s) 0 [EvRequest v; EvSleep Pacing (pace self)]).
Proof.
  intros Hv Hp Ht Hs Hi Hd Hstop. open_pass v. rewrite Ht.
  rewrite (handle_response_invalid _ _ _ _ text) by assumption.
  cbn [handlers]. unfold except_retry, bind, get_attempt_number, get_response.
  cbn [attempt_number response].
  destruct (Z.eqb_spec (attempt_number s) (retry_max_attempts self)) as [E | E].
  - close_pass.
  - destruct Hstop as [? | Hr]; [contradiction |].
    cbn. rewrite bool_decide_eq_false_2 by exact Hr. close_pass.
Qed.

Lemma iteration_retried env self s v r text :
  verb_of self = Some v ->
  0 <= request_interval self ->
  transport env (sent s) = inr r ->
  retried_status self (status_code r) ->
  decode_utf8 env (content r) = Some text ->
  attempt_number s <> retry_max_attempts self ->
  iteration env self s =
    (Ok None,
     received s r (attempt_number s + 1) 1
       [EvRequest v;
        EvSleep Backoff (backoff env (attempt_number s) (uniform env (drawn s)));
        EvSleep Pacing (pace self)]).
Proof.
  intros Hv Hp Ht (Hs & Hi & Hr) Hd Hn. open_pass v. rewrite Ht.
  rewrite (handle_response_invalid _ _ _ _ text) by assumption.
  cbn [handlers]. unfold except_retry, bind, get_attempt_number, get_response.
  cbn [attempt_number response].
  destruct (Z.eqb_spec (attempt_number s) (retry_max_attempts self)) as [E | E];
    [contradiction |].
  cbn. rewrite bool_decide_eq_true_2 by exact Hr. close_pass.
Qed.

(** A transport failure on the last attempt is re-raised as it is. *)
Lemma iteration_timeout_last env self s v e :
  verb_of self = Some v ->
  0 <= request_interval self ->
  transport env (sent s) = inl e ->
  is_timeout e = true ->
  attempt_number s = retry_max_attempts self ->
  iteration env self s =
    (Raised e, failed s (attempt_number s) 0 [EvRequest v; EvSleep Pacing (pace self)]).
Proof.
  intros Hv Hp Ht He Hn. open_pass v. rewrite Ht.
  destruct e; try discriminate He; cbn [handlers];
    unfold except_retry, bind, get_attempt_number; cbn [attempt_number];
    rewrite (proj2 (Z.eqb_eq _ _) Hn); close_pass.
Qed.

(** A transport failure before the last attempt, when no response was ever
    bound to the local [response]. *)
Lemma iteration_timeout_unbound env self s v e :
  verb_of self = Some v ->
  0 <= request_interval self ->
  transport env (sent s) = inl e ->
  is_timeout e = true ->
  attempt_number s <> retry_max_attempts self ->
  response s = None ->
  iteration env self s =
    (Raised (UnboundLocalError "response"),
     failed s (attempt_number s) 0 [EvRequest v; EvSleep Pacing (pace self)]).
Proof.
  intros Hv Hp Ht He Hn Hr. open_pass v. rewrite Ht.
  destruct e; try discriminate He; cbn [handlers];
    unfold except_retry, bind, get_attempt_number, get_response, failed;
    cbn [attempt_number response];
    rewrite (proj2 (Z.eqb_neq _ _) Hn); rewrite Hr; close_pass.
Qed.

(** A transport failure before the last attempt, decided on the response
    left in the local [response] by an earlier pass. *)
Lemma iteration_timeout_stale env self s v e r0 :
  verb_of self = Some v ->
  0 <= request_interval self ->
  transport env (sent s) = inl e ->
  is_timeout e = true ->
  attempt_number s <> retry_max_attempts self ->
  response s = Some r0 ->
  iteration env self s =
    if bool_decide (status_code r0 ∈ retry_statuses self) then
      (Ok None,
       failed s (attempt_number s + 1) 1
         [EvRequest v;
          EvSleep Backoff (backoff env (attempt_number s) (uniform env (drawn s)));
          EvSleep Pacing (pace self)])
    else
      (Raised e,
       failed s (attempt_number s) 0 [EvRequest v; EvSleep Pacing (pace self)]).
Proof.
  intros Hv Hp Ht He Hn Hr. open_pass v. rewrite Ht.
  destruct e; try discriminate He; cbn [handlers];
    unfold except_retry, bind, get_attempt_number, get_response, failed;
    cbn [attempt_number response];
    rewrite (proj2 (Z.eqb_neq _ _) Hn); rewrite Hr; cbn;
    destruct (bool_decide (status_code r0 ∈ retry_statuses self)); close_pass.
Qed.

(** A method other than GET and POST: the pass raises before any request
    goes out, and the [finally] clause still sleeps. *)
Lemma iteration_invalid_method env self s :
  verb_of self = None ->
  0 <= request_interval self ->
  iteration env self s =
    (Raised (ValueError ("Invalid HTTP method: " ++ method self)),
     emit (EvSleep Pacing (pace self)) s).
Proof.
  intros Hv Hp. unfold iteration, try_finally, try_except, try_block.
  rewrite send_request_invalid by exact Hv.
  rewrite (time_sleep_nonneg Pacing) by (apply pace_sleepable; assumption).
  reflexivity.
Qed.

(** Every pass that sends a request ends normally or by an exception; it
    adds one [attempt_block] to the trace, and it hands control back to the
    loop test only after incrementing [attempt_number]. *)
Lemma iteration_shape env self s v :
  verb_of self = Some v ->
  0 <= request_interval self ->
  exists res s' blk,
    iteration env self s = (res, s')
    /\ res <> OutOfFuel
    /\ trace s' = (trace s ++ blk)%list
    /\ request_block v (pace self) blk
    /\ (res = Ok None -> attempt_number s' = attempt_number s + 1).
Proof.
  intros Hv Hp. open_pass v.
  unfold _handle_response, bytes_decode, response_json, handlers, except_retry,
    _backoff_delay, random_uniform_0_1, get_attempt_number, get_response,
    set_attempt_number, bind, ret, raise.
  unfold time_sleep, emit.
  repeat (first [rewrite backoff_sleepable | case_decide | case_match];
          cbn in *; simplify_eq);
    (eexists _, _, _; split; [reflexivity |]; split; [discriminate |]; cbn;
     split; [rewrite <- ?app_assoc; cbn; reflexivity |];
     split; [first [left; reflexivity | right; eexists; reflexivity] |];
     first [discriminate | reflexivity | intros; discriminate | intros; reflexivity]).
Qed.

(** Whatever the configuration and the environment, a pass ends, and it
    hands control back to the loop test only with [attempt_number]
    incremented. *)
Lemma iteration_progress env self s :
  fst (iteration env self s) <> OutOfFuel
  /\ (fst (iteration env self s) = Ok None ->
      attempt_number (snd (iteration env self s)) = attempt_number s + 1).
Proof.
  unfold iteration, try_finally, try_except, try_block, send_request,
    requests_get, requests_post, requests_call, set_response,
    _handle_response, bytes_decode, response_json, handlers, except_retry,
    _backoff_delay, random_uniform_0_1, get_attempt_number, get_response,
    set_attempt_number, time_sleep, emit, bind, ret, raise.
  repeat (first [case_decide | case_match]; cbn in *; simplify_eq);
    (split; [discriminate |]);
    first [discriminate | reflexivity | intros; discriminate | intros; reflexivity].
Qed.

(** A pass hands control back to the loop test only through the retry
    branch of the [except] clause, so the response it leaves in [response]
    has a status in [retry_statuses]. *)
Lemma iteration_continue_response env self s :
  fst (iteration env self s) = Ok None ->
  exists r,
    response (snd (iteration env self s)) = Some r
    /\ status_code r ∈ retry_statuses self.
Proof.
  unfold iteration, try_finally, try_except, try_block, send_request,
    requests_get, requests_post, requests_call, set_response,
    _handle_response, bytes_decode, response_json, handlers, except_retry,
    _backoff_delay, random_uniform_0_1, get_attempt_number, get_response,
    set_attempt_number, time_sleep, emit, bind, ret, raise.
  repeat (first [case_decide | case_match]; cbn in *; simplify_eq);
    try discriminate; intros _; cbn;
    eexists; (split; [first [reflexivity | eassumption] | assumption]).
Qed.

(** ** The loop *)

Lemma handle_request_entry env self s :
  handle_request env self s =
    while_loop (Z.to_nat (retry_max_attempts self)) env self (entry s).
Proof. reflexivity. Qed.

Lemma while_loop_exit fuel env self s :
  retry_max_attempts self < attempt_number s ->
  while_loop fuel env self s = (Ok PyNone, s).
Proof.
  intros H. destruct fuel; cbn [while_loop]; unfold bind, get_attempt_number;
    rewrite (proj2 (Z.leb_gt _ _) H); reflexivity.
Qed.

Lemma while_loop_pass fuel env self s :
  attempt_number s <= retry_max_attempts self ->
  while_loop (S fuel) env self s =
    match iteration env self s with
    | (Ok (Some v), s') => (Ok v, s')
    | (Ok None, s') => while_loop fuel env self s'
    | (Raised e, s') => (Raised e, s')
    | (OutOfFuel, s') => (OutOfFuel, s')
    end.
Proof.
  intros H. cbn [while_loop]. unfold bind at 1, get_attempt_number.
  rewrite (proj2 (Z.leb_le _ _) H). unfold bind at 1.
  destruct (iteration env self s) as [[[v |] | e |] s']; reflexivity.
Qed.

(** The loop terminates: the fuel [handle_request] passes on is enough. *)
Lemma while_loop_total env self fuel : forall s,
  (passes_left self s <= fuel)%nat ->
  fst (while_loop fuel env self s) <> OutOfFuel.
Proof.
  unfold passes_left.
  induction fuel as [| fuel IH]; intros s Hfuel.
  - rewrite while_loop_exit by lia. discriminate.
  - destruct (Z_lt_le_dec (retry_max_attempts self) (attempt_number s)) as [Hout | Hin].
    + rewrite while_loop_exit by exact Hout. discriminate.
    + rewrite while_loop_pass by exact Hin.
      destruct (iteration_progress env self s) as [Hres Hnext].
      destruct (iteration env self s) as [[[body |] | e |] s'];
        cbn in *; try discriminate; try congruence.
      apply IH. rewrite Hnext by reflexivity. lia.
Qed.

(** Each pass adds one attempt block to the trace. *)
Lemma iteration_block env self s :
  0 <= request_interval self ->
  exists blk,
    trace (snd (iteration env self s)) = (trace s ++ blk)%list
    /\ attempt_block self blk.
Proof.
  intros Hp. unfold attempt_block.
  destruct (verb_of self) as [v |] eqn:Hv.
  - destruct (iteration_shape env self s v Hv Hp)
      as (res & s' & blk & -> & _ & Htr & Hblk & _).
    exists blk. split; assumption.
  - rewrite iteration_invalid_method by assumption.
    eexists. split; reflexivity.
Qed.

(** The loop adds whole attempt blocks to the trace. *)
Lemma while_loop_paced env self fuel : forall s,
  0 <= request_interval self ->
  exists blocks,
    trace (snd (while_loop fuel env self s)) = (trace s ++ concat blocks)%list
    /\ Forall (attempt_block self) blocks.
Proof.
  induction fuel as [| fuel IH]; intros s Hp.
  - exists []. split; [| constructor].
    cbn [concat]. rewrite app_nil_r. cbn. unfold bind, get_attempt_number.
    destruct (Z.leb _ _); reflexivity.
  - destruct (Z_lt_le_dec (retry_max_attempts self) (attempt_number s)) as [Hout | Hin].
    + rewrite while_loop_exit by exact Hout.
      exists []. split; [cbn; rewrite app_nil_r; reflexivity | constructor].
    + rewrite while_loop_pass by exact Hin.
      destruct (iteration_block env self s Hp) as (blk & Htr & Hblk).
      destruct (iteration env self s) as [res s']. cbn [snd] in Htr.
      assert (Hone : trace s' = (trace s ++ concat [blk])%list
                     /\ Forall (attempt_block self) [blk]).
      { split; [cbn; rewrite app_nil_r; exact Htr |].
        constructor; [exact Hblk | constructor]. }
      destruct res as [[body |] | e |]; cbn [snd]; try (exists [blk]; exact Hone).
      destruct (IH s' Hp) as (blocks & Ht & Hall).
      exists (blk :: blocks). split.
      * rewrite Ht, Htr, <- app_assoc. reflexivity.
      * constructor; assumption.
Qed.

(** One pacing sleep per block, and with a valid method one request. *)
Lemma blocks_pacing self blocks :
  Forall (attempt_block self) blocks ->
  sleeps_at Pacing (concat blocks) = length blocks.
Proof.
  unfold sleeps_at, attempt_block.
  induction 1 as [| blk blocks Hblk _ IH]; [reflexivity |].
  cbn [concat length]. rewrite List.filter_app, length_app, IH.
  destruct (verb_of self); [destruct Hblk as [-> | [d ->]] | subst blk]; reflexivity.
Qed.

Lemma blocks_requests self blocks :
  is_Some (verb_of self) ->
  Forall (attempt_block self) blocks ->
  requests_made (concat blocks) = length blocks.
Proof.
  unfold requests_made, attempt_block. intros [v ->].
  induction 1 as [| blk blocks Hblk _ IH]; [reflexivity |].
  cbn [concat length]. rewrite List.filter_app, length_app, IH.
  destruct Hblk as [-> | [d ->]]; reflexivity.
Qed.

Lemma blocks_last self blocks :
  Forall (attempt_block self) blocks ->
  blocks <> [] ->
  last (concat blocks) = Some (EvSleep Pacing (pace self)).
Proof.
  unfold attempt_block.
  induction 1 as [| blk blocks Hblk Hrest IH]; [intros H; now elim H |].
  intros _. cbn [concat]. rewrite last_app.
  destruct blocks as [| blk' blocks'].
  - cbn [concat last].
    destruct (verb_of self); [destruct Hblk as [-> | [d ->]] | subst blk]; reflexivity.
  - rewrite IH by discriminate. reflexivity.
Qed.

(** ** The degenerate budget *)

(** C10. With [retry_max_attempts = 0] the loop test fails at once:
    [handle_request] sends no request, sleeps nowhere, raises nothing and
    returns [None] where its signature announces a dictionary. *)
Theorem zero_attempts_returns_none env self s :
  retry_max_attempts self = 0 ->
  handle_request env self s = (Ok PyNone, entry s)
  /\ trace (entry s) = trace s
  /\ sent (entry s) = sent s.
Proof.
  intros H. rewrite handle_request_entry.
  rewrite while_loop_exit by (cbn; lia). repeat split.
Qed.

Lemma zero_attempts_returns_none_witness :
  retry_max_attempts (with_max_attempts 0 stock_handler) = 0
  /\ handle_request (always 200) (with_max_attempts 0 stock_handler) boot
     = (Ok PyNone, entry boot).
Proof.
  split; [reflexivity |].
  apply (zero_attempts_returns_none (always 200) (with_max_attempts 0 stock_handler) boot).
  reflexivity.
Defined.

(** ** Transport failures *)

(** C9. When the first request times out and more than one attempt is
    allowed, the [except] clause reads the local [response] although nothing
    was ever assigned to it: the call ends with [UnboundLocalError] after
    one request and the pacing sleep, without any backoff or second request.
    The state shows the branch taken: [response] is still unbound. *)
Theorem timeout_on_first_attempt_unbound env self s v e :
  verb_of self = Some v ->
  0 <= request_interval self ->
  1 < retry_max_attempts self ->
  transport env (sent s) = inl e ->
  is_timeout e = true ->
  handle_request env self s =
    (Raised (UnboundLocalError "response"),
     {| attempt_number := 1; response := None; sent := S (sent s);
        drawn := drawn s;
        trace := trace s ++ [EvRequest v; EvSleep Pacing (pace self)] |}).
Proof.
  intros Hv Hp Hmax Ht He. rewrite handle_request_entry.
  destruct (Z.to_nat (retry_max_attempts self)) as [| fuel] eqn:Hfuel; [lia |].
  rewrite while_loop_pass by (cbn; lia).
  rewrite (iteration_timeout_unbound env self (entry s) v e)
    by (try assumption; try reflexivity; cbn; lia).
  reflexivity.
Qed.

Lemma timeout_on_first_attempt_unbound_witness :
  verb_of stock_handler = Some GET
  /\ 0 <= request_interval stock_handler
  /\ 1 < retry_max_attempts stock_handler
  /\ transport timing_out (sent boot) = inl (Timeout "timed out")
  /\ is_timeout (Timeout "timed out") = true
  /\ handle_request timing_out stock_handler boot =
       (Raised (UnboundLocalError "response"),
        {| attempt_number := 1; response := None; sent := 1; drawn := 0;
           trace := [EvRequest GET; EvSleep Pacing (pace stock_handler)] |}).
Proof.
  split; [reflexivity |]. split; [discriminate |]. split; [reflexivity |].
  split; [reflexivity |]. split; [reflexivity |].
  apply (timeout_on_first_attempt_unbound timing_out stock_handler boot GET
           (Timeout "timed out"));
    [reflexivity | discriminate | reflexivity | reflexivity | reflexivity].
Defined.

(** C2. The stock configuration allows three attempts, yet a timeout on the
    first request is not retried: the handler's own test reads [response]
    before any response exists and the call ends with [UnboundLocalError]
    after a single request. *)
Theorem first_timeout_is_not_retried :
  handle_request timing_out stock_handler boot =
    (Raised (UnboundLocalError "response"),
     {| attempt_number := 1; response := None; sent := 1; drawn := 0;
        trace := [EvRequest GET; EvSleep Pacing 5] |}).
Proof. reflexivity. Qed.

(** Once a response is bound, the same handler does retry a timeout while
    attempts remain: a pass is only ever repeated when the status left in
    [response] is in [retry_statuses]. *)
Lemma later_timeout_is_retried :
  handle_request flaky stock_handler boot =
    (Ok (PyInt 7),
     {| attempt_number := 3;
        response := Some (http_response 200 [] (PyInt 7));
        sent := 3; drawn := 2;
        trace := [EvRequest GET; EvSleep Backoff (backoff flaky 1 (1 # 2)); EvSleep Pacing 5;
                  EvRequest GET; EvSleep Backoff (backoff flaky 2 (1 # 2)); EvSleep Pacing 5;
                  EvRequest GET; EvSleep Pacing 5] |}).
Proof. vm_compute. reflexivity. Qed.

(** X6. In general: a pass entered after an earlier pass asked for a retry
    finds a response with a retry status in [response], so a timeout there
    is retried while attempts remain. *)
Lemma timeout_after_a_retry env self s0 v e :
  verb_of self = Some v ->
  0 <= request_interval self ->
  fst (iteration env self s0) = Ok None ->
  transport env (sent (snd (iteration env self s0))) = inl e ->
  is_timeout e = true ->
  attempt_number (snd (iteration env self s0)) < retry_max_attempts self ->
  fst (iteration env self (snd (iteration env self s0))) = Ok None.
Proof.
  intros Hv Hp Hcont Ht He Hlt.
  destruct (iteration_continue_response env self s0 Hcont) as (r0 & Hr0 & Hin).
  rewrite (iteration_timeout_stale env self _ v e r0) by (try assumption; lia).
  rewrite bool_decide_eq_true_2 by exact Hin. reflexivity.
Qed.

(** ** Statuses outside the configured sets *)

(** C7. A first response whose status is in none of [valid_statuses],
    [invalid_statuses] and [retry_statuses] ends the call with
    [UnspecifiedHTTPStatusError], whose message carries the status code,
    after exactly one request: no backoff, no second request. *)
Theorem unspecified_status_raises_at_once env self s v r :
  verb_of self = Some v ->
  0 <= request_interval self ->
  1 <= retry_max_attempts self ->
  transport env (sent s) = inr r ->
  status_code r ∉ valid_statuses self ->
  status_code r ∉ invalid_statuses self ->
  status_code r ∉ retry_statuses self ->
  handle_request env self s =
    (Raised (UnspecifiedHTTPStatusError
               ("Response status code not specified as valid or invalid: "
                ++ pretty (status_code r))),
     {| attempt_number := 1; response := Some r; sent := S (sent s);
        drawn := drawn s;
        trace := trace s ++ [EvRequest v; EvSleep Pacing (pace self)] |}).
Proof.
  intros Hv Hp Hmax Ht Hva Hin _. rewrite handle_request_entry.
  destruct (Z.to_nat (retry_max_attempts self)) as [| fuel] eqn:Hfuel; [lia |].
  rewrite while_loop_pass by (cbn; lia).
  rewrite (iteration_unspecified env self (entry s) v r) by assumption.
  reflexivity.
Qed.

Lemma unspecified_status_raises_at_once_witness :
  verb_of stock_handler = Some GET
  /\ 0 <= request_interval stock_handler
  /\ 1 <= retry_max_attempts stock_handler
  /\ transport (always 418) (sent boot) = inr (http_response 418 [] PyNone)
  /\ (418 ∉ valid_statuses stock_handler)
  /\ (418 ∉ invalid_statuses stock_handler)
  /\ (418 ∉ retry_statuses stock_handler)
  /\ handle_request (always 418) stock_handler boot =
       (Raised (UnspecifiedHTTPStatusError
                  "Response status code not specified as valid or invalid: 418"),
        {| attempt_number := 1; response := Some (http_response 418 [] PyNone);
           sent := 1; drawn := 0;
           trace := [EvRequest GET; EvSleep Pacing (pace stock_handler)] |}).
Proof.
  split; [reflexivity |]. split; [discriminate |]. split; [discriminate |].
  split; [reflexivity |].
  split; [compute_done |]. split; [compute_done |]. split; [compute_done |].
  apply (unspecified_status_raises_at_once (always 418) stock_handler boot GET
           (http_response 418 [] PyNone));
    [reflexivity | discriminate | discriminate | reflexivity | compute_done ..].
Defined.

(** ** Pacing *)

(** Only a pass that is not the last one hands control back to the loop
    test, with [attempt_number] incremented; a pass that ends the call
    leaves [attempt_number] as it was. *)
Lemma iteration_attempt_number env self s :
  0 <= request_interval self ->
  (fst (iteration env self s) = Ok None ->
   attempt_number s <> retry_max_attempts self
   /\ attempt_number (snd (iteration env self s)) = attempt_number s + 1)
  /\ (fst (iteration env self s) <> Ok None ->
      attempt_number (snd (iteration env self s)) = attempt_number s).
Proof.
  intros Hp. unfold iteration.
  rewrite (time_sleep_nonneg Pacing) by (apply pace_sleepable; assumption).
  unfold try_finally, try_except, try_block, send_request,
    requests_get, requests_post, requests_call, set_response,
    _handle_response, bytes_decode, response_json, handlers, except_retry,
    _backoff_delay, random_uniform_0_1, get_attempt_number, get_response,
    set_attempt_number, time_sleep, emit, bind, ret, raise.
  repeat (first [case_decide | case_match]; cbn in *; simplify_eq);
    (split; intros Hres; cbn in *;
     first [ discriminate Hres
           | now elim Hres
           | reflexivity
           | split; [apply Z.eqb_neq; assumption | reflexivity] ]).
Qed.

(** From a state in which the loop test holds, the blocks added to the
    trace are as many as the passes made: the attempt number reached, less
    the one the loop started from, plus one. *)
Lemma while_loop_counts env self fuel : forall s,
  0 <= request_interval self ->
  attempt_number s <= retry_max_attempts self ->
  (passes_left self s <= fuel)%nat ->
  exists blocks,
    trace (snd (while_loop fuel env self s)) = (trace s ++ concat blocks)%list
    /\ Forall (attempt_block self) blocks
    /\ blocks <> []
    /\ Z.of_nat (length blocks)
       = attempt_number (snd (while_loop fuel env self s)) - attempt_number s + 1.
Proof.
  unfold passes_left.
  induction fuel as [| fuel IH]; intros s Hp Hin Hfuel; [lia |].
  rewrite while_loop_pass by exact Hin.
  destruct (iteration_block env self s Hp) as (blk & Htr & Hblk).
  destruct (iteration_progress env self s) as [Hres _].
  destruct (iteration_attempt_number env self s Hp) as [Hcont Hstop].
  destruct (iteration env self s) as [res s']. cbn [fst snd] in *.
  assert (Hone : res <> Ok None ->
            trace s' = (trace s ++ concat [blk])%list
            /\ Forall (attempt_block self) [blk]
            /\ [blk] <> []
            /\ Z.of_nat (length [blk]) = attempt_number s' - attempt_number s + 1).
  { intros Hne. rewrite (Hstop Hne). split; [cbn; rewrite app_nil_r; exact Htr |].
    split; [constructor; [exact Hblk | constructor] |].
    split; [discriminate | cbn; lia]. }
  destruct res as [[body |] | e |]; cbn [snd];
    try (exists [blk]; apply Hone; discriminate).
  destruct (Hcont eq_refl) as [Hnot Hnext].
  destruct (IH s' Hp ltac:(lia) ltac:(lia)) as (blocks & Ht & Hall & _ & Hlen).
  exists (blk :: blocks). split; [| split; [| split]].
  - rewrite Ht, Htr, <- app_assoc. reflexivity.
  - constructor; assumption.
  - discriminate.
  - cbn [length]. lia.
Qed.

(** C5. The events a call adds to the trace split into blocks, one per
    attempt (one per pass of the loop), and every block ends with exactly one
    pacing sleep of [request_interval] seconds: also the block of the attempt
    that ends the call, whether it returns or raises.  The blocks are as many
    as the attempts made, which is the value [attempt_number] has reached
    when the call ends; with at least one attempt allowed there is at least
    one.  So the pacing sleeps are as many as the attempts, the last of them
    is the last thing that happens before the result or the exception is
    delivered, and the call does deliver one.  With method GET or POST every
    attempt is one request, and the requests are as many as well. *)
Theorem pacing_once_per_attempt env self s :
  0 <= request_interval self ->
  exists blocks,
    trace (snd (handle_request env self s)) = (trace s ++ concat blocks)%list
    /\ Forall (attempt_block self) blocks
    /\ sleeps_at Pacing (concat blocks) = length blocks
    /\ (is_Some (verb_of self) -> requests_made (concat blocks) = length blocks)
    /\ (blocks <> [] -> last (concat blocks) = Some (EvSleep Pacing (pace self)))
    /\ (1 <= retry_max_attempts self ->
        blocks <> []
        /\ Z.of_nat (length blocks) = attempt_number (snd (handle_request env self s)))
    /\ (retry_max_attempts self < 1 -> blocks = [])
    /\ fst (handle_request env self s) <> OutOfFuel.
Proof.
  intros Hp.
  assert (Htotal : fst (handle_request env self s) <> OutOfFuel).
  { rewrite handle_request_entry. apply while_loop_total.
    unfold passes_left. cbn. lia. }
  destruct (Z_lt_le_dec (retry_max_attempts self) 1) as [Hnone | Hsome].
  - exists []. rewrite handle_request_entry in *.
    rewrite while_loop_exit in * by (cbn; lia).
    split; [cbn; rewrite app_nil_r; reflexivity |].
    split; [constructor |]. split; [reflexivity |]. split; [reflexivity |].
    split; [intros H; now elim H |]. split; [lia |].
    split; [reflexivity | exact Htotal].
  - rewrite handle_request_entry in *.
    destruct (while_loop_counts env self (Z.to_nat (retry_max_attempts self))
                (entry s) Hp) as (blocks & Ht & Hall & Hne & Hlen).
    { cbn. lia. }
    { unfold passes_left. cbn. lia. }
    cbn [attempt_number entry] in Hlen.
    exists blocks. split; [exact Ht |]. split; [exact Hall |].
    split; [exact (blocks_pacing _ _ Hall) |].
    split; [intros Hv; exact (blocks_requests _ _ Hv Hall) |].
    split; [exact (blocks_last _ _ Hall) |].
    split; [| split; [lia | exact Htotal]].
    intros _. split; [exact Hne | lia].
Qed.

Lemma pacing_once_per_attempt_witness :
  0 <= request_interval stock_handler
  /\ exists blocks,
       trace (snd (handle_request (always 429) stock_handler boot))
         = (trace boot ++ concat blocks)%list
       /\ Forall (attempt_block stock_handler) blocks
       /\ sleeps_at Pacing (concat blocks) = length blocks
       /\ (is_Some (verb_of stock_handler) -> requests_made (concat blocks) = length blocks)
       /\ (blocks <> [] -> last (concat blocks) = Some (EvSleep Pacing (pace stock_handler)))
       /\ (1 <= retry_max_attempts stock_handler ->
           blocks <> []
           /\ Z.of_nat (length blocks)
              = attempt_number (snd (handle_request (always 429) stock_handler boot)))
       /\ (retry_max_attempts stock_handler < 1 -> blocks = [])
       /\ fst (handle_request (always 429) stock_handler boot) <> OutOfFuel.
Proof.
  split; [discriminate |].
  apply (pacing_once_per_attempt (always 429) stock_handler boot).
  discriminate.
Defined.

(** X7. With any other method the single pass raises [ValueError] before a
    request goes out, and the [finally] clause sleeps all the same. *)
Lemma invalid_method_sleeps_without_request env self s :
  verb_of self = None ->
  0 <= request_interval self ->
  1 <= retry_max_attempts self ->
  handle_request env self s =
    (Raised (ValueError ("Invalid HTTP method: " ++ method self)),
     emit (EvSleep Pacing (pace self)) (entry s)).
Proof.
  intros Hv Hp Hmax. rewrite handle_request_entry.
  destruct (Z.to_nat (retry_max_attempts self)) as [| fuel] eqn:Hfuel; [lia |].
  rewrite while_loop_pass by (cbn; lia).
  rewrite iteration_invalid_method by assumption. reflexivity.
Qed.

(** ** Backoff *)

(** C6, as the code has it.  For an attempt number [n >= 0] and a jitter
    [j] with [0 <= j < 1] drawn from the random source, [_backoff_delay]
    returns the binary64 product of [min(2^n, 10)] and the binary64 sum
    [1 + j]: at least the base and at most twice the base.  The base is 1
    for [n = 0] and is capped at 10 for [n = 10]. *)
Theorem backoff_delay_bounds env s n :
  0 <= n ->
  (0 <= uniform env (drawn s))%Q ->
  (uniform env (drawn s) < 1)%Q ->
  exists d,
    fst (_backoff_delay env n s) = Ok d
    /\ (d == fl env (inject_Z (Z.min (2 ^ n) 10)
                    * fl env (1 + uniform env (drawn s))))%Q
    /\ (inject_Z (Z.min (2 ^ n) 10) <= d)%Q
    /\ (d <= 2 * inject_Z (Z.min (2 ^ n) 10))%Q
    /\ (backoff_base env 0 == 1)%Q
    /\ (backoff_base env 10 == 10)%Q.
Proof.
  intros Hn Hlo Hhi. exists (backoff env n (uniform env (drawn s))).
  split; [reflexivity |].
  assert (Hbase : 1 <= Z.min (2 ^ n) 10 <= 10).
  { assert (0 < 2 ^ n) by (apply Z.pow_pos_nonneg; lia). lia. }
  set (b := Z.min (2 ^ n) 10) in *.
  assert (Hb1 : (1 <= inject_Z b)%Q)
    by (change 1%Q with (inject_Z 1); rewrite <- Zle_Qle; lia).
  destruct (fl_one_plus_jitter env (drawn s)) as [H1 H2].
  unfold backoff, backoff_base. rewrite (proj2 (Z.leb_le 0 n) Hn). fold b.
  split; [reflexivity |]. split; [| split].
  - apply (fl_ge env b); [lia | nra].
  - assert (H2b : (2 * inject_Z b == inject_Z (2 * b))%Q)
      by (rewrite inject_Z_mult; reflexivity).
    rewrite H2b. apply (fl_le env (2 * b)); [lia |]. rewrite <- H2b. nra.
  - split; reflexivity.
Qed.

Lemma backoff_delay_bounds_witness :
  0 <= 10
  /\ (0 <= uniform unlucky (drawn boot))%Q
  /\ (uniform unlucky (drawn boot) < 1)%Q
  /\ exists d,
       fst (_backoff_delay unlucky 10 boot) = Ok d
       /\ (d == fl unlucky (inject_Z (Z.min (2 ^ 10) 10)
                           * fl unlucky (1 + uniform unlucky (drawn boot))))%Q
       /\ (inject_Z (Z.min (2 ^ 10) 10) <= d)%Q
       /\ (d <= 2 * inject_Z (Z.min (2 ^ 10) 10))%Q
       /\ (backoff_base unlucky 0 == 1)%Q
       /\ (backoff_base unlucky 10 == 10)%Q.
Proof.
  split; [lia |]. split; [discriminate |]. split; [reflexivity |].
  apply (backoff_delay_bounds unlucky boot 10); [lia | discriminate | reflexivity].
Defined.

(** C6 as stated fails at the largest jitter, [1 - 2^-53]: the sum
    [1 + j] lies halfway between two floats and rounds to 2, and the
    delay for attempt number 10 is 20 seconds, twice the base, not less. *)
Lemma backoff_delay_reaches_twice_the_base :
  (0 <= uniform unlucky (drawn boot))%Q
  /\ (uniform unlucky (drawn boot) < 1)%Q
  /\ exists d,
       fst (_backoff_delay unlucky 10 boot) = Ok d
       /\ (d == 2 * inject_Z (Z.min (2 ^ 10) 10))%Q
       /\ ~ (d < 2 * inject_Z (Z.min (2 ^ 10) 10))%Q
       /\ ~ (d == inject_Z (Z.min (2 ^ 10) 10) * (1 + uniform unlucky (drawn boot)))%Q.
Proof.
  split; [discriminate |]. split; [reflexivity |].
  eexists. split; [reflexivity |].
  split; [vm_compute; reflexivity |].
  split; vm_compute; discriminate.
Qed.

(** The binary64 arithmetic itself agrees: with the largest jitter as a
    float, [1 + j] is the float 2 and the product with 10 is the float 20,
    which is not below 20. *)
Lemma binary64_delay_reaches_twice_the_base :
  PrimFloat.ltb binary64_top_jitter 1%float = true
  /\ PrimFloat.add 1%float binary64_top_jitter = 2%float
  /\ binary64_delay 10%float binary64_top_jitter = 20%float
  /\ PrimFloat.ltb (binary64_delay 10%float binary64_top_jitter) 20%float = false.
Proof. repeat split; vm_compute; reflexivity. Qed.

(** ** Statuses that lead to a retry *)

(** A pass that the loop enters with a valid method starts with a request,
    and what follows in the loop only adds to the trace. *)
Lemma while_loop_first_request env self v fuel s :
  verb_of self = Some v ->
  0 <= request_interval self ->
  attempt_number s <= retry_max_attempts self ->
  exists rest,
    trace (snd (while_loop (S fuel) env self s)) = (trace s ++ EvRequest v :: rest)%list.
Proof.
  intros Hv Hp Hin. rewrite while_loop_pass by exact Hin.
  destruct (iteration_shape env self s v Hv Hp)
    as (res & s' & blk & -> & _ & Htr & Hblk & _).
  assert (Hhead : exists tl, blk = EvRequest v :: tl).
  { destruct Hblk as [-> | [d ->]]; eexists; reflexivity. }
  destruct Hhead as [tl ->].
  destruct res as [[body |] | e |]; cbn [snd]; try (exists tl; exact Htr).
  destruct (while_loop_paced env self fuel s' Hp) as (blocks & Ht & _).
  exists (tl ++ concat blocks)%list. rewrite Ht, Htr, <- app_assoc. reflexivity.
Qed.

(** C1, as the code has it.  A retry needs the status to be in
    [invalid_statuses] as well as in [retry_statuses] (and outside
    [valid_statuses]), and a body that decodes as UTF-8.  Then, before the
    last attempt, the pass draws a jitter, sleeps the backoff delay and the
    pacing interval, leaves [attempt_number] incremented, and the loop goes
    on to send the next request. *)
Theorem retried_status_schedules_retry env self s v r text fuel :
  verb_of self = Some v ->
  0 <= request_interval self ->
  transport env (sent s) = inr r ->
  retried_status self (status_code r) ->
  decode_utf8 env (content r) = Some text ->
  attempt_number s < retry_max_attempts self ->
  (passes_left self s <= fuel)%nat ->
  iteration env self s =
    (Ok None,
     received s r (attempt_number s + 1) 1
       [EvRequest v;
        EvSleep Backoff (backoff env (attempt_number s) (uniform env (drawn s)));
        EvSleep Pacing (pace self)])
  /\ exists rest,
       trace (snd (while_loop fuel env self s)) =
         (trace s ++
          [EvRequest v;
           EvSleep Backoff (backoff env (attempt_number s) (uniform env (drawn s)));
           EvSleep Pacing (pace self);
           EvRequest v] ++ rest)%list.
Proof.
  intros Hv Hp Ht Hst Hd Hlt Hfuel.
  assert (Hpass := iteration_retried env self s v r text Hv Hp Ht Hst Hd ltac:(lia)).
  split; [exact Hpass |].
  unfold passes_left in Hfuel.
  destruct fuel as [| [| fuel]]; [lia | lia |].
  rewrite while_loop_pass by lia. rewrite Hpass.
  match goal with |- context [while_loop _ _ _ ?s1] => set (next := s1) end.
  destruct (while_loop_first_request env self v fuel next Hv Hp) as [rest Hrest].
  { subst next. cbn. lia. }
  exists rest. rewrite Hrest. subst next. unfold received. cbn [trace].
  rewrite <- app_assoc. reflexivity.
Qed.

Lemma retried_status_schedules_retry_witness :
  verb_of stock_handler = Some GET
  /\ 0 <= request_interval stock_handler
  /\ transport (always 429) (sent (entry boot)) = inr (http_response 429 [] PyNone)
  /\ retried_status stock_handler 429
  /\ decode_utf8 (always 429) [] = Some ""
  /\ attempt_number (entry boot) < retry_max_attempts stock_handler
  /\ (passes_left stock_handler (entry boot) <= 3)%nat
  /\ exists rest,
       trace (snd (while_loop 3 (always 429) stock_handler (entry boot))) =
         ([EvRequest GET; EvSleep Backoff (backoff (always 429) 1 (1 # 2));
           EvSleep Pacing (pace stock_handler); EvRequest GET] ++ rest)%list.
Proof.
  split; [reflexivity |]. split; [discriminate |]. split; [reflexivity |].
  split; [repeat split; compute_done |].
  split; [reflexivity |]. split; [reflexivity |]. split; [vm_compute; lia |].
  apply (retried_status_schedules_retry (always 429) stock_handler (entry boot) GET
           (http_response 429 [] PyNone) "" 3%nat);
    [reflexivity | discriminate | reflexivity | repeat split; compute_done
    | reflexivity | reflexivity | vm_compute; lia].
Defined.

(** C1 as stated fails: with [retry_statuses] kept apart from
    [invalid_statuses], a 429 on the first of three attempts is not retried
    but reported as an unspecified status. *)
Lemma retry_only_status_is_not_retried :
  429 ∈ retry_statuses disjoint_handler
  /\ (429 ∉ valid_statuses disjoint_handler)
  /\ attempt_number (entry boot) < retry_max_attempts disjoint_handler
  /\ iteration (always 429) disjoint_handler (entry boot) =
       (Raised (UnspecifiedHTTPStatusError
                  "Response status code not specified as valid or invalid: 429"),
        {| attempt_number := 1; response := Some (http_response 429 [] PyNone);
           sent := 1; drawn := 0;
           trace := [EvRequest GET; EvSleep Pacing 5] |})
  /\ requests_made (trace (snd (handle_request (always 429) disjoint_handler boot))) = 1%nat
  /\ sleeps_at Backoff (trace (snd (handle_request (always 429) disjoint_handler boot))) = 0%nat.
Proof.
  split; [compute_done |]. split; [compute_done |]. split; [reflexivity |].
  split; [vm_compute; reflexivity |]. split; vm_compute; reflexivity.
Qed.

(** ** Rejected statuses *)

(** C3, as the code has it.  A first response whose status is in
    [invalid_statuses], outside [valid_statuses], and either outside
    [retry_statuses] or received when only one attempt is allowed, ends the
    call after exactly one request with an [HTTPError] carrying the decoded
    body: no backoff sleep, only the pacing sleep. *)
Theorem rejected_status_raises_at_once env self s v r text :
  verb_of self = Some v ->
  0 <= request_interval self ->
  1 <= retry_max_attempts self ->
  transport env (sent s) = inr r ->
  status_code r ∉ valid_statuses self ->
  status_code r ∈ invalid_statuses self ->
  status_code r ∉ retry_statuses self \/ retry_max_attempts self = 1 ->
  decode_utf8 env (content r) = Some text ->
  handle_request env self s =
    (Raised (HTTPError text),
     {| attempt_number := 1; response := Some r; sent := S (sent s);
        drawn := drawn s;
        trace := trace s ++ [EvRequest v; EvSleep Pacing (pace self)] |}).
Proof.
  intros Hv Hp Hmax Ht Hva Hin Hstop Hd. rewrite handle_request_entry.
  destruct (Z.to_nat (retry_max_attempts self)) as [| fuel] eqn:Hfuel; [lia |].
  rewrite while_loop_pass by (cbn; lia).
  rewrite (iteration_rejected env self (entry s) v r text); try assumption.
  - reflexivity.
  - destruct Hstop as [Hr | Hone]; [right; exact Hr | left; cbn; lia].
Qed.

Lemma rejected_status_raises_at_once_witness :
  verb_of stock_handler = Some GET
  /\ 0 <= request_interval stock_handler
  /\ 1 <= retry_max_attempts stock_handler
  /\ transport (always 404) (sent boot) = inr (http_response 404 [] PyNone)
  /\ (404 ∉ valid_statuses stock_handler)
  /\ 404 ∈ invalid_statuses stock_handler
  /\ (404 ∉ retry_statuses stock_handler)
  /\ decode_utf8 (always 404) [] = Some ""
  /\ handle_request (always 404) stock_handler boot =
       (Raised (HTTPError ""),
        {| attempt_number := 1; response := Some (http_response 404 [] PyNone);
           sent := 1; drawn := 0;
           trace := [EvRequest GET; EvSleep Pacing (pace stock_handler)] |}).
Proof.
  split; [reflexivity |]. split; [discriminate |]. split; [discriminate |].
  split; [reflexivity |].
  split; [compute_done |]. split; [compute_done |]. split; [compute_done |].
  split; [reflexivity |].
  apply (rejected_status_raises_at_once (always 404) stock_handler boot GET
           (http_response 404 [] PyNone) "");
    [reflexivity | discriminate | discriminate | reflexivity | compute_done
    | compute_done | left; compute_done | reflexivity].
Defined.

(** C3 as stated fails: in the stock configuration 429 is in
    [invalid_statuses] and in [retry_statuses], and a transport that keeps
    answering 429 is asked three times, with two backoff sleeps, before the
    [HTTPError] is raised. *)
Lemma rejected_and_retry_status_is_retried :
  429 ∈ invalid_statuses stock_handler
  /\ (429 ∉ valid_statuses stock_handler)
  /\ 429 ∈ retry_statuses stock_handler
  /\ handle_request (always 429) stock_handler boot =
       (Raised (HTTPError ""),
        {| attempt_number := 3; response := Some (http_response 429 [] PyNone);
           sent := 3; drawn := 2;
           trace := [EvRequest GET; EvSleep Backoff (backoff (always 429) 1 (1 # 2)); EvSleep Pacing 5;
                     EvRequest GET; EvSleep Backoff (backoff (always 429) 2 (1 # 2)); EvSleep Pacing 5;
                     EvRequest GET; EvSleep Pacing 5] |})
  /\ requests_made (trace (snd (handle_request (always 429) stock_handler boot))) <> 1%nat
  /\ sleeps_at Backoff (trace (snd (handle_request (always 429) stock_handler boot))) <> 0%nat.
Proof.
  split; [compute_done |]. split; [compute_done |]. split; [compute_done |].
  split; [vm_compute; reflexivity |]. split; vm_compute; discriminate.
Qed.

(** ** Three attempts *)

(** C4, as the code has it.  With three attempts allowed and three
    responses whose statuses are in [invalid_statuses] and [retry_statuses]
    (outside [valid_statuses]) and whose bodies decode, the call sends
    exactly three requests, sleeps a backoff delay after the first and after
    the second, and raises the [HTTPError] of the third response. *)
Theorem always_retried_three_attempts env self s v r1 r2 r3 t1 t2 t3 :
  verb_of self = Some v ->
  0 <= request_interval self ->
  retry_max_attempts self = 3 ->
  transport env (sent s) = inr r1 ->
  transport env (S (sent s)) = inr r2 ->
  transport env (S (S (sent s))) = inr r3 ->
  retried_status self (status_code r1) ->
  retried_status self (status_code r2) ->
  retried_status self (status_code r3) ->
  decode_utf8 env (content r1) = Some t1 ->
  decode_utf8 env (content r2) = Some t2 ->
  decode_utf8 env (content r3) = Some t3 ->
  handle_request env self s =
    (Raised (HTTPError t3),
     {| attempt_number := 3; response := Some r3; sent := S (S (S (sent s)));
        drawn := S (S (drawn s));
        trace := trace s ++
          [EvRequest v; EvSleep Backoff (backoff env 1 (uniform env (drawn s)));
           EvSleep Pacing (pace self);
           EvRequest v; EvSleep Backoff (backoff env 2 (uniform env (S (drawn s))));
           EvSleep Pacing (pace self);
           EvRequest v; EvSleep Pacing (pace self)] |}).
Proof.
  intros Hv Hp Hmax H1 H2 H3 S1 S2 S3 D1 D2 D3.
  rewrite handle_request_entry, Hmax. change (Z.to_nat 3) with 3%nat.
  rewrite while_loop_pass by (cbn; lia).
  rewrite (iteration_retried env self (entry s) v r1 t1)
    by (try assumption; cbn; lia).
  rewrite while_loop_pass by (cbn; lia).
  rewrite (iteration_retried env self _ v r2 t2)
    by (try assumption; cbn; lia).
  rewrite while_loop_pass by (cbn; lia).
  destruct S3 as (V3 & I3 & _).
  rewrite (iteration_rejected env self _ v r3 t3)
    by (try assumption; left; cbn; lia).
  unfold received. cbn. rewrite <- !app_assoc. reflexivity.
Qed.

Lemma always_retried_three_attempts_witness :
  verb_of stock_handler = Some GET
  /\ 0 <= request_interval stock_handler
  /\ retry_max_attempts stock_handler = 3
  /\ retried_status stock_handler 429
  /\ handle_request (always 429) stock_handler boot =
       (Raised (HTTPError ""),
        {| attempt_number := 3; response := Some (http_response 429 [] PyNone);
           sent := 3; drawn := 2;
           trace := [EvRequest GET; EvSleep Backoff (backoff (always 429) 1 (1 # 2));
                     EvSleep Pacing (pace stock_handler);
                     EvRequest GET; EvSleep Backoff (backoff (always 429) 2 (1 # 2));
                     EvSleep Pacing (pace stock_handler);
                     EvRequest GET; EvSleep Pacing (pace stock_handler)] |}).
Proof.
  split; [reflexivity |]. split; [discriminate |]. split; [reflexivity |].
  split; [repeat split; compute_done |].
  apply (always_retried_three_attempts (always 429) stock_handler boot GET
           (http_response 429 [] PyNone) (http_response 429 [] PyNone)
           (http_response 429 [] PyNone) "" "" "");
    try reflexivity; try discriminate; repeat split; compute_done.
Defined.

(** C4 as stated fails: 429 is retryable for [disjoint_handler] and three
    attempts are allowed, but the first 429 already ends the call, with an
    unspecified-status error instead of an [HTTPError]. *)
Lemma retryable_only_status_one_attempt :
  retry_max_attempts disjoint_handler = 3
  /\ 429 ∈ retry_statuses disjoint_handler
  /\ fst (handle_request (always 429) disjoint_handler boot) =
       Raised (UnspecifiedHTTPStatusError
                 "Response status code not specified as valid or invalid: 429")
  /\ sent (snd (handle_request (always 429) disjoint_handler boot)) = 1%nat
  /\ requests_made (trace (snd (handle_request (always 429) disjoint_handler boot))) <> 3%nat.
Proof.
  split; [reflexivity |]. split; [compute_done |].
  split; [vm_compute; reflexivity |]. split; [vm_compute; reflexivity |].
  vm_compute; discriminate.
Qed.

(** ** Retry, then success *)

(** C8, as the code has it.  With three attempts allowed, a first response
    whose status is in [invalid_statuses] and [retry_statuses] (outside
    [valid_statuses], body decodable) and a second response whose status is
    in [valid_statuses], the call sends exactly two requests and returns
    what [json()] gives for the second response. *)
Theorem retry_then_accept_two_attempts env self s v r1 r2 t1 body :
  verb_of self = Some v ->
  0 <= request_interval self ->
  retry_max_attempts self = 3 ->
  transport env (sent s) = inr r1 ->
  transport env (S (sent s)) = inr r2 ->
  retried_status self (status_code r1) ->
  decode_utf8 env (content r1) = Some t1 ->
  status_code r2 ∈ valid_statuses self ->
  json r2 = inr body ->
  handle_request env self s =
    (Ok body,
     {| attempt_number := 2; response := Some r2; sent := S (S (sent s));
        drawn := S (drawn s);
        trace := trace s ++
          [EvRequest v; EvSleep Backoff (backoff env 1 (uniform env (drawn s)));
           EvSleep Pacing (pace self);
           EvRequest v; EvSleep Pacing (pace self)] |}).
Proof.
  intros Hv Hp Hmax H1 H2 S1 D1 V2 J2.
  rewrite handle_request_entry, Hmax. change (Z.to_nat 3) with 3%nat.
  rewrite while_loop_pass by (cbn; lia).
  rewrite (iteration_retried env self (entry s) v r1 t1)
    by (try assumption; cbn; lia).
  rewrite while_loop_pass by (cbn; lia).
  rewrite (iteration_accepted env self _ v r2 body) by assumption.
  unfold received. cbn. rewrite <- !app_assoc. reflexivity.
Qed.

Lemma retry_then_accept_two_attempts_witness :
  verb_of stock_handler = Some GET
  /\ 0 <= request_interval stock_handler
  /\ retry_max_attempts stock_handler = 3
  /\ retried_status stock_handler 429
  /\ 200 ∈ valid_statuses stock_handler
  /\ handle_request (first_then 429 200) stock_handler boot =
       (Ok (PyDict [("ok", PyBool true)]),
        {| attempt_number := 2;
           response := Some (http_response 200 [] (PyDict [("ok", PyBool true)]));
           sent := 2; drawn := 1;
           trace := [EvRequest GET; EvSleep Backoff (backoff (first_then 429 200) 1 (1 # 2));
                     EvSleep Pacing (pace stock_handler);
                     EvRequest GET; EvSleep Pacing (pace stock_handler)] |}).
Proof.
  split; [reflexivity |]. split; [discriminate |]. split; [reflexivity |].
  split; [repeat split; compute_done |]. split; [compute_done |].
  apply (retry_then_accept_two_attempts (first_then 429 200) stock_handler boot GET
           (http_response 429 [] PyNone)
           (http_response 200 [] (PyDict [("ok", PyBool true)])) "");
    try reflexivity; try discriminate; try compute_done; repeat split; compute_done.
Defined.

(** C8 as stated fails: for [disjoint_handler] 429 is retryable and 200 is
    accepted, but the 429 of the first response ends the call; the second
    response is never asked for. *)
Lemma retryable_only_then_accept_stops_early :
  retry_max_attempts disjoint_handler = 3
  /\ 429 ∈ retry_statuses disjoint_handler
  /\ 200 ∈ valid_statuses disjoint_handler
  /\ handle_request (first_then 429 200) disjoint_handler boot =
       (Raised (UnspecifiedHTTPStatusError
                  "Response status code not specified as valid or invalid: 429"),
        {| attempt_number := 1; response := Some (http_response 429 [] PyNone);
           sent := 1; drawn := 0;
           trace := [EvRequest GET; EvSleep Pacing 5] |}).
Proof.
  split; [reflexivity |]. split; [compute_done |]. split; [compute_done |].
  vm_compute; reflexivity.
Qed.

(** * Further properties of the handler *)

(** ** Accepted responses and what is not retried *)

(** X1. A first response whose status is in [valid_statuses] is returned
    at once, whatever the other two sets say about that status: one request,
    the pacing sleep, no random draw, and the value of [json()]. *)
Theorem accepted_status_returns_body env self s v r body :
  verb_of self = Some v ->
  0 <= request_interval self ->
  1 <= retry_max_attempts self ->
  transport env (sent s) = inr r ->
  status_code r ∈ valid_statuses self ->
  json r = inr body ->
  handle_request env self s =
    (Ok body,
     {| attempt_number := 1; response := Some r; sent := S (sent s);
        drawn := drawn s;
        trace := trace s ++ [EvRequest v; EvSleep Pacing (pace self)] |}).
Proof.
  intros Hv Hp Hmax Ht Hs Hj. rewrite handle_request_entry.
  destruct (Z.to_nat (retry_max_attempts self)) as [| fuel] eqn:Hfuel; [lia |].
  rewrite while_loop_pass by (cbn; lia).
  rewrite (iteration_accepted env self (entry s) v r body) by assumption.
  reflexivity.
Qed.

Lemma accepted_status_returns_body_witness :
  handle_request (first_then 200 200)
    (with_max_attempts 1 stock_handler) boot =
    (Ok PyNone,
     {| attempt_number := 1; response := Some (http_response 200 [] PyNone);
        sent := 1; drawn := 0;
        trace := [EvRequest GET; EvSleep Pacing (pace stock_handler)] |}).
Proof.
  apply (accepted_status_returns_body (first_then 200 200)
           (with_max_attempts 1 stock_handler) boot GET
           (http_response 200 [] PyNone) PyNone);
    [reflexivity | discriminate | discriminate | reflexivity | compute_done
    | reflexivity].
Defined.

(** X2. An exception of the transport that neither [except] clause names
    (a [ConnectionError], say) is never retried: it reaches the caller as it
    is after one request and the pacing sleep, however many attempts are
    left. *)
Theorem unhandled_transport_error_propagates env self s v e :
  verb_of self = Some v ->
  0 <= request_interval self ->
  1 <= retry_max_attempts self ->
  transport env (sent s) = inl e ->
  handlers env self e = None ->
  handle_request env self s =
    (Raised e,
     {| attempt_number := 1; response := None; sent := S (sent s);
        drawn := drawn s;
        trace := trace s ++ [EvRequest v; EvSleep Pacing (pace self)] |}).
Proof.
  intros Hv Hp Hmax Ht Hh. rewrite handle_request_entry.
  destruct (Z.to_nat (retry_max_attempts self)) as [| fuel] eqn:Hfuel; [lia |].
  rewrite while_loop_pass by (cbn; lia).
  assert (Hpass : iteration env self (entry s) =
            (Raised e,
             failed (entry s) 1 0 [EvRequest v; EvSleep Pacing (pace self)])).
  { open_pass v. cbn [sent entry]. rewrite Ht, Hh. close_pass. }
  rewrite Hpass. reflexivity.
Qed.

Lemma unhandled_transport_error_propagates_witness :
  handle_request refusing stock_handler boot =
    (Raised (ConnectionError "connection refused"),
     {| attempt_number := 1; response := None; sent := 1; drawn := 0;
        trace := [EvRequest GET; EvSleep Pacing (pace stock_handler)] |}).
Proof.
  apply (unhandled_transport_error_propagates refusing stock_handler boot GET
           (ConnectionError "connection refused"));
    [reflexivity | discriminate | discriminate | reflexivity | reflexivity].
Defined.

(** X3. A response with an invalid status whose body is not UTF-8 does not
    become an [HTTPError]: decoding the body raises [UnicodeDecodeError],
    which no [except] clause names.  The call ends there, after one request,
    also when the status is in [retry_statuses] and attempts are left. *)
Theorem undecodable_body_is_not_retried env self s v r :
  verb_of self = Some v ->
  0 <= request_interval self ->
  1 <= retry_max_attempts self ->
  transport env (sent s) = inr r ->
  status_code r ∉ valid_statuses self ->
  status_code r ∈ invalid_statuses self ->
  decode_utf8 env (content r) = None ->
  handle_request env self s =
    (Raised UnicodeDecodeError,
     {| attempt_number := 1; response := Some r; sent := S (sent s);
        drawn := drawn s;
        trace := trace s ++ [EvRequest v; EvSleep Pacing (pace self)] |}).
Proof.
  intros Hv Hp Hmax Ht Hva Hin Hd. rewrite handle_request_entry.
  destruct (Z.to_nat (retry_max_attempts self)) as [| fuel] eqn:Hfuel; [lia |].
  rewrite while_loop_pass by (cbn; lia).
  assert (Hpass : iteration env self (entry s) =
            (Raised UnicodeDecodeError,
             received (entry s) r 1 0 [EvRequest v; EvSleep Pacing (pace self)])).
  { open_pass v. cbn [sent entry]. rewrite Ht.
    unfold _handle_response, bytes_decode, bind.
    rewrite decide_False by exact Hva. rewrite decide_True by exact Hin.
    rewrite Hd. close_pass. }
  rewrite Hpass. reflexivity.
Qed.

Lemma undecodable_body_is_not_retried_witness :
  429 ∈ retry_statuses stock_handler
  /\ handle_request garbled stock_handler boot =
       (Raised UnicodeDecodeError,
        {| attempt_number := 1;
           response := Some (http_response 429 [Byte.xff] PyNone);
           sent := 1; drawn := 0;
           trace := [EvRequest GET; EvSleep Pacing (pace stock_handler)] |}).
Proof.
  split; [compute_done |].
  apply (undecodable_body_is_not_retried garbled stock_handler boot GET
           (http_response 429 [Byte.xff] PyNone));
    [reflexivity | discriminate | discriminate | reflexivity | compute_done
    | compute_done | reflexivity].
Defined.

(** X4. When an accepted response does not parse, what [json()] raises is
    passed on as long as no [except] clause names its class (the
    [JSONDecodeError] of a body that is not JSON, say): one request, no
    retry. *)
Theorem unparsable_body_propagates env self s v r e :
  verb_of self = Some v ->
  0 <= request_interval self ->
  1 <= retry_max_attempts self ->
  transport env (sent s) = inr r ->
  status_code r ∈ valid_statuses self ->
  json r = inl e ->
  handlers env self e = None ->
  handle_request env self s =
    (Raised e,
     {| attempt_number := 1; response := Some r; sent := S (sent s);
        drawn := drawn s;
        trace := trace s ++ [EvRequest v; EvSleep Pacing (pace self)] |}).
Proof.
  intros Hv Hp Hmax Ht Hs Hj Hh. rewrite handle_request_entry.
  destruct (Z.to_nat (retry_max_attempts self)) as [| fuel] eqn:Hfuel; [lia |].
  rewrite while_loop_pass by (cbn; lia).
  assert (Hpass : iteration env self (entry s) =
            (Raised e,
             received (entry s) r 1 0 [EvRequest v; EvSleep Pacing (pace self)])).
  { open_pass v. cbn [sent entry]. rewrite Ht.
    rewrite handle_response_valid by exact Hs.
    unfold response_json. rewrite Hj. unfold bind, raise. rewrite Hh. close_pass. }
  rewrite Hpass. reflexivity.
Qed.

Lemma unparsable_body_propagates_witness :
  handle_request unparsable stock_handler boot =
    (Raised (JSONDecodeError "Expecting value"),
     {| attempt_number := 1;
        response := Some {| status_code := 200; content := [];
                            json := inl (JSONDecodeError "Expecting value") |};
        sent := 1; drawn := 0;
        trace := [EvRequest GET; EvSleep Pacing (pace stock_handler)] |}).
Proof.
  apply (unparsable_body_propagates unparsable stock_handler boot GET
           {| status_code := 200; content := [];
              json := inl (JSONDecodeError "Expecting value") |}
           (JSONDecodeError "Expecting value"));
    [reflexivity | discriminate | discriminate | reflexivity | compute_done
    | reflexivity | reflexivity].
Defined.

(** ** Transport failures, continued *)

(** X5. With a single attempt allowed, a timeout of that attempt reaches
    the caller as the transport raised it: the test of the [except] clause
    is settled by [attempt_number == self.retry_max_attempts] and the
    unbound [response] is never read. *)
Theorem single_attempt_timeout_is_reraised env self s v e :
  verb_of self = Some v ->
  0 <= request_interval self ->
  retry_max_attempts self = 1 ->
  transport env (sent s) = inl e ->
  is_timeout e = true ->
  handle_request env self s =
    (Raised e,
     {| attempt_number := 1; response := None; sent := S (sent s);
        drawn := drawn s;
        trace := trace s ++ [EvRequest v; EvSleep Pacing (pace self)] |}).
Proof.
  intros Hv Hp Hmax Ht He. rewrite handle_request_entry, Hmax.
  change (Z.to_nat 1) with 1%nat.
  rewrite while_loop_pass by (cbn; lia).
  rewrite (iteration_timeout_last env self (entry s) v e)
    by (try assumption; cbn; lia).
  reflexivity.
Qed.

Lemma single_attempt_timeout_is_reraised_witness :
  handle_request timing_out (with_max_attempts 1 stock_handler) boot =
    (Raised (Timeout "timed out"),
     {| attempt_number := 1; response := None; sent := 1; drawn := 0;
        trace := [EvRequest GET; EvSleep Pacing (pace stock_handler)] |}).
Proof.
  apply (single_attempt_timeout_is_reraised timing_out
           (with_max_attempts 1 stock_handler) boot GET (Timeout "timed out"));
    [reflexivity | discriminate | reflexivity | reflexivity | reflexivity].
Defined.

Lemma timeout_after_a_retry_witness :
  fst (iteration flaky stock_handler
         (snd (iteration flaky stock_handler (entry boot)))) = Ok None.
Proof.
  apply (timeout_after_a_retry flaky stock_handler (entry boot) GET
           (Timeout "timed out"));
    [reflexivity | discriminate | vm_compute; reflexivity | reflexivity
    | reflexivity | vm_compute; reflexivity].
Defined.

(** ** Configurations outside the documented ranges *)

Lemma invalid_method_sleeps_without_request_witness :
  handle_request (always 200) (with_method "PUT" stock_handler) boot =
    (Raised (ValueError "Invalid HTTP method: PUT"),
     {| attempt_number := 1; response := None; sent := 0; drawn := 0;
        trace := [EvSleep Pacing 5] |}).
Proof.
  apply (invalid_method_sleeps_without_request (always 200)
           (with_method "PUT" stock_handler) boot);
    [reflexivity | discriminate | discriminate].
Defined.

(** The [try] block with its [except] clauses ends normally or by an
    exception, and it never sleeps the pacing interval: that is left to the
    [finally] clause. *)
Lemma guarded_try_no_pacing env self s :
  fst (try_except (try_block env self) (handlers env self) s) <> OutOfFuel
  /\ sleeps_at Pacing
       (trace (snd (try_except (try_block env self) (handlers env self) s)))
     = sleeps_at Pacing (trace s).
Proof.
  unfold try_except, try_block, send_request,
    requests_get, requests_post, requests_call, set_response,
    _handle_response, bytes_decode, response_json, handlers, except_retry,
    _backoff_delay, random_uniform_0_1, get_attempt_number, get_response,
    set_attempt_number, time_sleep, emit, bind, ret, raise, sleeps_at.
  repeat (first [rewrite backoff_sleepable | case_decide | case_match];
          cbn in *; simplify_eq);
    (split; [discriminate |]); cbn;
    rewrite ?List.filter_app, ?length_app; cbn; lia.
Qed.

(** X8. With a negative [request_interval] the [finally] clause itself
    raises: [time.sleep] refuses the argument, and its [ValueError] replaces
    whatever the pass was about to deliver, a parsed body included.  Every
    call that enters the loop ends with it after the first pass, without a
    pacing sleep. *)
Theorem negative_interval_always_raises env self s :
  request_interval self < 0 ->
  1 <= retry_max_attempts self ->
  fst (handle_request env self s)
    = Raised (ValueError "sleep length must be non-negative")
  /\ sleeps_at Pacing (trace (snd (handle_request env self s)))
     = sleeps_at Pacing (trace s).
Proof.
  intros Hneg Hmax. rewrite handle_request_entry.
  destruct (Z.to_nat (retry_max_attempts self)) as [| fuel] eqn:Hfuel; [lia |].
  rewrite while_loop_pass by (cbn; lia).
  assert (Hsleep : Qle_bool 0 (inject_Z (request_interval self)) = false).
  { apply not_true_iff_false. rewrite Qle_bool_iff.
    change 0%Q with (inject_Z 0). rewrite <- Zle_Qle. lia. }
  unfold iteration, try_finally, time_sleep. rewrite Hsleep.
  destruct (guarded_try_no_pacing env self (entry s)) as [Hres Htr].
  destruct (try_except (try_block env self) (handlers env self) (entry s))
    as [[[body |] | e |] s']; cbn in *; try congruence; split; auto.
Qed.

Lemma negative_interval_always_raises_witness :
  fst (handle_request (always 200) (with_interval (-1) stock_handler) boot)
    = Raised (ValueError "sleep length must be non-negative").
Proof.
  apply (negative_interval_always_raises (always 200)
           (with_interval (-1) stock_handler) boot);
    [reflexivity | discriminate].
Defined.

(** ** The attempt budget *)

(** Whatever the configuration, a pass sends at most one request. *)
Lemma iteration_requests env self s :
  exists blk,
    trace (snd (iteration env self s)) = (trace s ++ blk)%list
    /\ (requests_made blk <= 1)%nat.
Proof.
  unfold iteration, try_finally, try_except, try_block, send_request,
    requests_get, requests_post, requests_call, set_response,
    _handle_response, bytes_decode, response_json, handlers, except_retry,
    _backoff_delay, random_uniform_0_1, get_attempt_number, get_response,
    set_attempt_number, time_sleep, emit, bind, ret, raise.
  repeat (first [case_decide | case_match]; cbn in *; simplify_eq);
    cbn; eexists;
    (split;
     [first [rewrite <- ?app_assoc; reflexivity | symmetry; apply app_nil_r]
     | cbn; lia]).
Qed.

Lemma requests_made_app t1 t2 :
  requests_made (t1 ++ t2) = (requests_made t1 + requests_made t2)%nat.
Proof. unfold requests_made. rewrite List.filter_app, length_app. reflexivity. Qed.

Lemma while_loop_requests env self fuel : forall s,
  exists t,
    trace (snd (while_loop fuel env self s)) = (trace s ++ t)%list
    /\ (requests_made t <= passes_left self s)%nat.
Proof.
  unfold passes_left.
  induction fuel as [| fuel IH]; intros s.
  - exists []. split; [| cbn; lia].
    rewrite app_nil_r. cbn. unfold bind, get_attempt_number.
    destruct (Z.leb _ _); reflexivity.
  - destruct (Z_lt_le_dec (retry_max_attempts self) (attempt_number s)) as [Hout | Hin].
    + rewrite while_loop_exit by exact Hout.
      exists []. split; [cbn; rewrite app_nil_r; reflexivity | cbn; lia].
    + rewrite while_loop_pass by exact Hin.
      destruct (iteration_requests env self s) as (blk & Htr & Hone).
      destruct (iteration_progress env self s) as [_ Hnext].
      destruct (iteration env self s) as [res s']. cbn [fst snd] in *.
      destruct res as [[body |] | e |]; cbn [snd];
        try (exists blk; split; [exact Htr | lia]).
      destruct (IH s') as (t & Ht & Hle).
      exists (blk ++ t)%list. split.
      * rewrite Ht, Htr, <- app_assoc. reflexivity.
      * rewrite requests_made_app. rewrite Hnext in Hle by reflexivity. lia.
Qed.

(** X9. A call never sends more requests than [retry_max_attempts], and
    it always ends, by a result or by an exception: for every configuration,
    transport and random source. *)
Theorem requests_within_budget env self s :
  exists t,
    trace (snd (handle_request env self s)) = (trace s ++ t)%list
    /\ (requests_made t <= Z.to_nat (retry_max_attempts self))%nat
    /\ fst (handle_request env self s) <> OutOfFuel.
Proof.
  rewrite handle_request_entry.
  destruct (while_loop_requests env self (Z.to_nat (retry_max_attempts self))
              (entry s)) as (t & Ht & Hle).
  exists t. split; [exact Ht |]. split.
  - unfold passes_left in Hle. cbn in Hle. lia.
  - apply while_loop_total. unfold passes_left. cbn. lia.
Qed.

(** A pass either asks for a retry, and then it was not the last attempt,
    it drew one jitter and slept the backoff delay of its attempt number; or
    it ends the call without drawing or backing off. *)
Lemma iteration_kind env self s v :
  verb_of self = Some v ->
  0 <= request_interval self ->
  (fst (iteration env self s) = Ok None
   /\ attempt_number s <> retry_max_attempts self
   /\ drawn (snd (iteration env self s)) = S (drawn s)
   /\ trace (snd (iteration env self s)) =
        (trace s ++
         [EvRequest v;
          EvSleep Backoff (backoff env (attempt_number s) (uniform env (drawn s)));
          EvSleep Pacing (pace self)])%list)
  \/ (fst (iteration env self s) <> Ok None
      /\ drawn (snd (iteration env self s)) = drawn s
      /\ trace (snd (iteration env self s)) =
           (trace s ++ [EvRequest v; EvSleep Pacing (pace self)])%list).
Proof.
  intros Hv Hp. open_pass v.
  unfold _handle_response, bytes_decode, response_json, handlers, except_retry,
    _backoff_delay, random_uniform_0_1, get_attempt_number, get_response,
    set_attempt_number, bind, ret, raise, pace.
  unfold time_sleep, emit.
  repeat (first [rewrite backoff_sleepable | case_decide | case_match];
          cbn in *; simplify_eq);
    try match goal with
        | H : Qle_bool 0 (backoff _ _ _) = false |- _ =>
            rewrite backoff_sleepable in H; discriminate H
        end;
    first
      [ right; split; [discriminate |]; split; [reflexivity |];
        cbn; rewrite <- ?app_assoc; reflexivity
      | left; split; [reflexivity |];
        split; [apply Z.eqb_neq; assumption |]; split; [reflexivity |];
        cbn; rewrite <- ?app_assoc; reflexivity ].
Qed.

Lemma sleeps_at_app site t1 t2 :
  sleeps_at site (t1 ++ t2) = (sleeps_at site t1 + sleeps_at site t2)%nat.
Proof. unfold sleeps_at. rewrite List.filter_app, length_app. reflexivity. Qed.

Lemma retry_blocks_counts env self v a i (ks : list nat) :
  requests_made (concat (map (retry_block env self v a i) ks)) = length ks
  /\ sleeps_at Backoff (concat (map (retry_block env self v a i) ks)) = length ks.
Proof.
  induction ks as [| k ks [IHr IHb]]; [split; reflexivity |].
  cbn [map concat length].
  rewrite requests_made_app, sleeps_at_app, IHr, IHb. split; reflexivity.
Qed.

Lemma retry_blocks_shift env self v a i r :
  map (retry_block env self v a i) (seq 1 r)
  = map (retry_block env self v (a + 1) (S i)) (seq 0 r).
Proof.
  rewrite <- seq_shift, map_map. apply map_ext. intros k.
  unfold retry_block.
  replace (a + Z.of_nat (S k)) with (a + 1 + Z.of_nat k) by lia.
  replace (i + S k)%nat with (S i + k)%nat by lia. reflexivity.
Qed.

Lemma while_loop_backoffs env self v fuel : forall s,
  verb_of self = Some v ->
  0 <= request_interval self ->
  attempt_number s <= retry_max_attempts self ->
  (passes_left self s <= fuel)%nat ->
  exists r : nat,
    Z.of_nat r <= retry_max_attempts self - attempt_number s
    /\ trace (snd (while_loop fuel env self s)) =
         (trace s
          ++ concat (map (retry_block env self v (attempt_number s) (drawn s))
                         (seq 0 r))
          ++ final_block self v)%list
    /\ drawn (snd (while_loop fuel env self s)) = (r + drawn s)%nat.
Proof.
  unfold passes_left.
  induction fuel as [| fuel IH]; intros s Hv Hp Hin Hfuel; [lia |].
  rewrite while_loop_pass by exact Hin.
  destruct (iteration_progress env self s) as [Hres Hnext].
  destruct (iteration_kind env self s v Hv Hp)
    as [(Hcont & Hnot & Hdr & Htr) | (Hstop & Hdr & Htr)];
    destruct (iteration env self s) as [res s']; cbn [fst snd] in *.
  - subst res. specialize (Hnext eq_refl).
    destruct (IH s' Hv Hp ltac:(lia) ltac:(lia)) as (r & Hr & Ht & Hdraw).
    exists (S r). split; [lia |]. split; [| lia].
    rewrite Ht, Htr, Hnext, Hdr. cbn [seq map concat].
    rewrite retry_blocks_shift. unfold retry_block at 2.
    rewrite Z.add_0_r, Nat.add_0_r, <- !app_assoc. reflexivity.
  - exists 0%nat. split; [lia |].
    destruct res as [[body |] | e |]; cbn [snd]; try congruence;
      (split; [exact Htr | exact Hdr]).
Qed.

(** X10. With method GET or POST, a sound pacing interval and at least one
    attempt allowed, the events of a call have one shape: some number [r]
    of retry blocks (request, backoff sleep, pacing sleep), fewer than
    [retry_max_attempts], followed by one final block (request, pacing
    sleep).  So every backoff sleep is followed by another request and the
    call never ends on one; the [k]-th backoff delay is the one of attempt
    number [k] with the [k]-th jitter, and the random source is drawn from
    exactly once per backoff sleep. *)
Theorem backoff_is_always_followed_up env self s v :
  verb_of self = Some v ->
  0 <= request_interval self ->
  1 <= retry_max_attempts self ->
  exists (r : nat) t,
    (r < Z.to_nat (retry_max_attempts self))%nat
    /\ t = (concat (map (retry_block env self v 1 (drawn s)) (seq 0 r))
            ++ final_block self v)%list
    /\ trace (snd (handle_request env self s)) = (trace s ++ t)%list
    /\ sleeps_at Backoff t = r
    /\ requests_made t = S r
    /\ drawn (snd (handle_request env self s)) = (r + drawn s)%nat.
Proof.
  intros Hv Hp Hmax. rewrite handle_request_entry.
  destruct (while_loop_backoffs env self v (Z.to_nat (retry_max_attempts self))
              (entry s) Hv Hp) as (r & Hr & Ht & Hdraw).
  - cbn. lia.
  - unfold passes_left. cbn. lia.
  - cbn [attempt_number drawn trace entry] in *.
    destruct (retry_blocks_counts env self v 1 (drawn s) (seq 0 r)) as [Hreq Hbo].
    rewrite length_seq in Hreq, Hbo.
    exists r, (concat (map (retry_block env self v 1 (drawn s)) (seq 0 r))
               ++ final_block self v)%list.
    split; [lia |]. split; [reflexivity |]. split; [exact Ht |].
    rewrite sleeps_at_app, requests_made_app, Hreq, Hbo.
    split; [cbn; lia |]. split; [cbn; lia | exact Hdraw].
Qed.

Lemma backoff_is_always_followed_up_witness :
  exists (r : nat) t,
    (r < Z.to_nat (retry_max_attempts stock_handler))%nat
    /\ t = (concat (map (retry_block flaky stock_handler GET 1 (drawn boot)) (seq 0 r))
            ++ final_block stock_handler GET)%list
    /\ trace (snd (handle_request flaky stock_handler boot)) = (trace boot ++ t)%list
    /\ sleeps_at Backoff t = r
    /\ requests_made t = S r
    /\ drawn (snd (handle_request flaky stock_handler boot)) = (r + drawn boot)%nat.
Proof.
  apply (backoff_is_always_followed_up flaky stock_handler boot GET);
    [reflexivity | discriminate | discriminate].
Defined.

(** ** Backoff, continued *)

(** X11. For every attempt number [n >= 0] the delay [_backoff_delay]
    returns is at least 1 second and at most 20 seconds: the base lies
    between 1 and 10 and the rounded sum [1 + jitter] between 1 and 2. *)
Theorem backoff_delay_is_capped env s n :
  0 <= n ->
  exists d,
    fst (_backoff_delay env n s) = Ok d /\ (1 <= d)%Q /\ (d <= 20)%Q.
Proof.
  intros Hn. exists (backoff env n (uniform env (drawn s))).
  split; [reflexivity |].
  assert (Hbase : 1 <= Z.min (2 ^ n) 10 <= 10).
  { assert (0 < 2 ^ n) by (apply Z.pow_pos_nonneg; lia). lia. }
  unfold backoff, backoff_base. rewrite (proj2 (Z.leb_le 0 n) Hn).
  set (b := Z.min (2 ^ n) 10) in *.
  assert (Hb1 : (1 <= inject_Z b)%Q)
    by (change 1%Q with (inject_Z 1); rewrite <- Zle_Qle; lia).
  assert (Hb10 : (inject_Z b <= 10)%Q)
    by (change 10%Q with (inject_Z 10); rewrite <- Zle_Qle; lia).
  destruct (fl_one_plus_jitter env (drawn s)) as [H1 H2].
  split.
  - apply (fl_ge env 1); [discriminate |]. change (inject_Z 1) with 1%Q. nra.
  - apply (fl_le env 20); [discriminate |]. change (inject_Z 20) with 20%Q. nra.
Qed.

Lemma backoff_delay_is_capped_witness :
  exists d,
    fst (_backoff_delay unlucky 10 boot) = Ok d /\ (1 <= d)%Q /\ (d <= 20)%Q.
Proof. apply (backoff_delay_is_capped unlucky boot 10). lia. Defined.

(** X12. Along the attempts the base delay never shrinks, and from the
    fourth attempt on it stays at the cap of 10 seconds: for the same jitter
    a later attempt never waits less than an earlier one. *)
Theorem backoff_grows_then_saturates env n m k :
  0 <= n <= m ->
  (backoff env n (uniform env k) <= backoff env m (uniform env k))%Q
  /\ (4 <= n -> (backoff_base env n == 10)%Q).
Proof.
  intros [Hn Hnm].
  assert (Hmono : Z.min (2 ^ n) 10 <= Z.min (2 ^ m) 10).
  { apply Z.min_le_compat_r. apply Z.pow_le_mono_r; lia. }
  split.
  - unfold backoff. apply fl_mono.
    rewrite (backoff_base_int env n), (backoff_base_int env m) by lia.
    rewrite Zle_Qle in Hmono.
    destruct (fl_one_plus_jitter env k) as [H1 _]. nra.
  - intros H4. rewrite (backoff_base_int env n) by lia.
    assert (2 ^ 4 <= 2 ^ n) by (apply Z.pow_le_mono_r; lia).
    rewrite Z.min_r by (change (2 ^ 4) with 16 in *; lia). reflexivity.
Qed.

Lemma backoff_grows_then_saturates_witness :
  (backoff (always 429) 4 (uniform (always 429) 0)
   <= backoff (always 429) 9 (uniform (always 429) 0))%Q
  /\ (4 <= 4 -> (backoff_base (always 429) 4 == 10)%Q).
Proof.
  apply (backoff_grows_then_saturates (always 429) 4 9 0%nat). lia.
Defined.

(** ** Exhausting the budget *)

Lemma while_loop_exhausts env self v (m : nat) : forall s fuel,
  verb_of self = Some v ->
  0 <= request_interval self ->
  (forall k, exists r text,
      transport env k = inr r
      /\ retried_status self (status_code r)
      /\ decode_utf8 env (content r) = Some text) ->
  attempt_number s + Z.of_nat m = retry_max_attempts self ->
  (m < fuel)%nat ->
  exists r text t,
    transport env (sent s + m)%nat = inr r
    /\ decode_utf8 env (content r) = Some text
    /\ fst (while_loop fuel env self s) = Raised (HTTPError text)
    /\ response (snd (while_loop fuel env self s)) = Some r
    /\ trace (snd (while_loop fuel env self s)) = (trace s ++ t)%list
    /\ requests_made t = S m
    /\ sleeps_at Backoff t = m
    /\ sleeps_at Pacing t = S m.
Proof.
  induction m as [| m IH]; intros s fuel Hv Hp Hall Hn Hfuel;
    (destruct fuel as [| fuel]; [lia |]);
    rewrite while_loop_pass by lia;
    destruct (Hall (sent s)) as (r & text & Ht & Hst & Hd).
  - destruct Hst as (Hva & Hin & _).
    rewrite (iteration_rejected env self s v r text)
      by (try assumption; left; lia).
    exists r, text, [EvRequest v; EvSleep Pacing (pace self)].
    rewrite Nat.add_0_r. repeat split; assumption.
  - rewrite (iteration_retried env self s v r text) by (try assumption; lia).
    match goal with |- context [while_loop _ _ _ ?s1] => set (next := s1) end.
    destruct (IH next fuel Hv Hp Hall) as (r' & text' & t & Ht' & Hd' & Hres & Hresp & Htr & Hreq & Hbo & Hpa).
    { subst next. cbn. lia. }
    { lia. }
    exists r', text', ([EvRequest v;
                        EvSleep Backoff (backoff env (attempt_number s) (uniform env (drawn s)));
                        EvSleep Pacing (pace self)] ++ t)%list.
    split; [subst next; cbn in Ht'; rewrite <- Ht'; f_equal; lia |].
    split; [exact Hd' |]. split; [exact Hres |]. split; [exact Hresp |].
    split; [rewrite Htr; subst next; unfold received; cbn [trace];
            rewrite <- app_assoc; reflexivity |].
    rewrite requests_made_app, !sleeps_at_app, Hreq, Hbo, Hpa.
    repeat split; reflexivity.
Qed.

(** X13. When every response has a status that is retried (in
    [invalid_statuses] and in [retry_statuses], outside [valid_statuses])
    and a body that decodes, a call uses its whole budget, whatever its
    size [N >= 1]: exactly [N] requests, [N - 1] backoff sleeps, [N] pacing
    sleeps, and then the [HTTPError] carrying the body of the [N]-th
    response. *)
Theorem retried_statuses_exhaust_budget env self s v :
  verb_of self = Some v ->
  0 <= request_interval self ->
  1 <= retry_max_attempts self ->
  (forall k, exists r text,
      transport env k = inr r
      /\ retried_status self (status_code r)
      /\ decode_utf8 env (content r) = Some text) ->
  exists r text t,
    transport env (sent s + (Z.to_nat (retry_max_attempts self) - 1))%nat = inr r
    /\ decode_utf8 env (content r) = Some text
    /\ fst (handle_request env self s) = Raised (HTTPError text)
    /\ response (snd (handle_request env self s)) = Some r
    /\ trace (snd (handle_request env self s)) = (trace s ++ t)%list
    /\ requests_made t = Z.to_nat (retry_max_attempts self)
    /\ S (sleeps_at Backoff t) = Z.to_nat (retry_max_attempts self)
    /\ sleeps_at Pacing t = Z.to_nat (retry_max_attempts self).
Proof.
  intros Hv Hp Hmax Hall. rewrite handle_request_entry.
  destruct (while_loop_exhausts env self v (Z.to_nat (retry_max_attempts self) - 1)
              (entry s) (Z.to_nat (retry_max_attempts self)) Hv Hp Hall)
    as (r & text & t & Ht & Hd & Hres & Hresp & Htr & Hreq & Hbo & Hpa).
  - cbn. lia.
  - lia.
  - exists r, text, t. cbn [sent entry trace] in *.
    repeat split; try assumption; lia.
Qed.

Lemma retried_statuses_exhaust_budget_witness :
  exists r text t,
    transport (always 429)
      (sent boot + (Z.to_nat (retry_max_attempts (with_max_attempts 5 stock_handler)) - 1))%nat
      = inr r
    /\ decode_utf8 (always 429) (content r) = Some text
    /\ fst (handle_request (always 429) (with_max_attempts 5 stock_handler) boot)
       = Raised (HTTPError text)
    /\ response (snd (handle_request (always 429) (with_max_attempts 5 stock_handler) boot))
       = Some r
    /\ trace (snd (handle_request (always 429) (with_max_attempts 5 stock_handler) boot))
       = (trace boot ++ t)%list
    /\ requests_made t = Z.to_nat (retry_max_attempts (with_max_attempts 5 stock_handler))
    /\ S (sleeps_at Backoff t) = Z.to_nat (retry_max_attempts (with_max_attempts 5 stock_handler))
    /\ sleeps_at Pacing t = Z.to_nat (retry_max_attempts (with_max_attempts 5 stock_handler)).
Proof.
  apply (retried_statuses_exhaust_budget (always 429)
           (with_max_attempts 5 stock_handler) boot GET);
    [reflexivity | discriminate | discriminate |].
  intros k. exists (http_response 429 [] PyNone), "".
  split; [reflexivity |]. split; [repeat split; compute_done | reflexivity].
Defined.

(** ** The default configuration *)

(** Whatever the pass goes on to do, a response it receives is bound to
    the local [response]. *)
Lemma iteration_binds_response env self s v r :
  verb_of self = Some v ->
  transport env (sent s) = inr r ->
  response (snd (iteration env self s)) = Some r.
Proof.
  intros Hv Ht. unfold iteration, try_finally, try_except, try_block.
  rewrite (send_request_verb _ _ v) by assumption.
  unfold requests_call, set_response,
    _handle_response, bytes_decode, response_json, handlers, except_retry,
    _backoff_delay, random_uniform_0_1, get_attempt_number, get_response,
    set_attempt_number, time_sleep, emit, bind, ret, raise.
  rewrite Ht.
  repeat (first [case_decide | case_match]; cbn in *; simplify_eq); reflexivity.
Qed.

(** X14. With the sets [__init__] installs by default, 429 is the one
    status that leads to a retry: a pass before the last attempt that
    receives a response (with a body that decodes) hands control back to
    the loop exactly when the status is 429.  Every other status, 500 and
    503 among them, ends the call in that pass. *)
Theorem default_retries_only_429 env url s r text :
  transport env (sent s) = inr r ->
  decode_utf8 env (content r) = Some text ->
  attempt_number s < retry_max_attempts (default_handler url) ->
  fst (iteration env (default_handler url) s) = Ok None <-> status_code r = 429.
Proof.
  intros Ht Hd Hlt. split.
  - intros Hcont.
    destruct (iteration_continue_response env (default_handler url) s Hcont)
      as (r' & Hr' & Hin).
    rewrite (iteration_binds_response env (default_handler url) s GET r) in Hr'
      by (reflexivity || assumption).
    injection Hr' as <-. cbn in Hin. apply elem_of_singleton in Hin. exact Hin.
  - intros H429.
    rewrite (iteration_retried env (default_handler url) s GET r text);
      try assumption; try reflexivity; try discriminate; [| lia].
    unfold retried_status. rewrite H429. cbn. split; [| split; set_solver].
    intros H. apply elem_of_union in H as [H | H];
      apply elem_of_singleton in H; discriminate H.
Qed.

Lemma default_retries_only_429_witness :
  fst (iteration (always 429) (default_handler "https://api.example") (entry boot))
    = Ok None
  <-> status_code (http_response 429 [] PyNone) = 429.
Proof.
  apply (default_retries_only_429 (always 429) "https://api.example" (entry boot)
           (http_response 429 [] PyNone) "");
    reflexivity.
Defined.
